(** * ProfessorNotificationAgent (agent.py): a shallow embedding and its properties

    The agent is a Python class with four methods that talk to the outside
    world: the wall clock ([datetime.datetime.now]), an IP-geolocation
    service ([requests.get] and [response.json]), a mail relay
    ([smtplib.SMTP]) and the console ([print]).

    The embedding is a state-and-exception monad over the history of
    effects performed so far.  What the outside world answers is read from
    an environment record [Env], each answer a function of that history.
    Python values are dynamically typed, so dictionaries are association
    lists of [pyval] and every lookup or arithmetic step may raise.

    Floats are binary64 ([PrimFloat]); [**] follows CPython's [float_pow],
    with the C library's [pow] left to the environment.  The request, the
    decoding of its body and every step of the SMTP session may raise any
    exception; [print] and the clock do not fail.  The scheduler loop
    ([start_scheduler]) and the command line are outside the embedding. *)

From Stdlib Require Import String Ascii ZArith List Bool Floats Lia.
Import ListNotations.

Set Warnings "-inexact-float,-register-all".

Local Open Scope string_scope.

(** ** Python values

    [json.loads] produces [None], [bool], [int], [float], [str], [list] and
    [dict] with [str] keys; [PComplex] is there only because [float ** float]
    may answer a complex number. *)

Inductive pyval : Type :=
| PNone
| PBool (b : bool)
| PInt (z : Z)
| PFloat (f : float)
| PComplex (re im : float)
| PStr (s : string)
| PList (l : list pyval)
| PDict (d : list (string * pyval)).

(** ** Exceptions

    Only subclasses of [Exception] are represented, so [except Exception]
    catches every inhabitant of [exn].  [KeyboardInterrupt] and [SystemExit]
    are asynchronous and are no part of the model. *)

Inductive exn : Type :=
| KeyError (key : string)
| TypeError (what : string)
| AttributeError (what : string)
| OverflowError (what : string)
| ZeroDivisionError (what : string)
| Exception_ (msg : string)            (* raise Exception(msg) *)
| LibraryError (cls msg : string).     (* raised inside requests, json, smtplib, socket *)

Inductive outcome (A : Type) : Type :=
| Returns (a : A)
| Raises (e : exn).

Arguments Returns {A} a.
Arguments Raises {A} e.

(** ** Dates and times: the fields of [datetime.datetime] *)

Record datetime : Type := mkDatetime {
  year : Z; month : Z; day : Z;
  hour : Z; minute : Z; second : Z; microsecond : Z
}.

(** ** E-mail messages as [email.mime] builds them *)

Inductive message : Type :=
| MIMEText (headers : list (string * pyval)) (text subtype charset : string)
| MIMEMultipart (headers : list (string * pyval)) (subtype : string)
                (payload : list message).

(** ** Effects

    [CallLocation] and [CallSend] mark the entry of the two methods, so that
    calls can be counted; every other event is an interaction with the
    outside world. *)

Inductive event : Type :=
| Print (text : string)
| ClockRead (now : datetime)
| CallLocation
| CallSend (to_addr subject body : string)
| HttpGet (url : string) (timeout : Z)
| SmtpConnect (host : string) (port : Z)
| SmtpStarttls
| SmtpLogin (user password : pyval)
| SmtpSendMessage (msg : message)
| SmtpQuit.

Definition history : Type := list event.
Bind Scope list_scope with history.

(** What [requests.get] hands back: only [response.json()] is ever called
    on it, so a response is what that call will do. *)

Record response : Type := mkResponse { json_body : outcome pyval }.

(** ** The environment: the platform and the outside world *)

Record Env : Type := mkEnv {
  (* process environment after [load_dotenv()] *)
  getenv : string -> option string;
  (* the wall clock *)
  clock : history -> datetime;
  (* the geolocation provider *)
  http_get : history -> outcome response;
  (* the mail relay: [None] when the step succeeds *)
  smtp_connect : history -> option exn;
  smtp_starttls : history -> option exn;
  smtp_login : history -> option exn;
  smtp_send_message : history -> option exn;
  smtp_quit : history -> option exn;
  (* the C library's [pow] on a finite positive base other than 1.0, with
     whether it left [errno] at [ERANGE] *)
  libm_pow : float -> float -> float * bool;
  (* complex power and modulus; [float ** float] falls back on the former
     for a negative base with a fractional exponent *)
  complex_pow : float * float -> float * float -> outcome (float * float);
  complex_abs : float * float -> outcome float;
  (* text renderings that only reach the console or a message string *)
  repr : pyval -> string;
  interpreter_message : exn -> string;
  datetime_str : datetime -> string;
  strftime : datetime -> string -> string
}.

(** ** The monad *)

Definition Py (A : Type) : Type := Env -> history -> outcome A * history.

Definition ret {A} (a : A) : Py A := fun _ h => (Returns a, h).

Definition bind {A B} (m : Py A) (k : A -> Py B) : Py B :=
  fun env h =>
    match m env h with
    | (Returns a, h') => k a env h'
    | (Raises e, h') => (Raises e, h')
    end.

Definition raise {A} (e : exn) : Py A := fun _ h => (Raises e, h).

(** [try: body  except Exception as e: handler e] *)
Definition try_except {A} (body : Py A) (handler : exn -> Py A) : Py A :=
  fun env h =>
    match body env h with
    | (Returns a, h') => (Returns a, h')
    | (Raises e, h') => handler e env h'
    end.

Definition lift {A} (o : outcome A) : Py A := fun _ h => (o, h).

Definition emit (e : event) : Py unit := fun _ h => (Returns tt, (h ++ [e])%list).

Definition ask {A} (f : Env -> A) : Py A := fun env h => (Returns (f env), h).

(** Consult a world oracle at the current history. *)
Definition consult {A} (f : Env -> history -> A) : Py A :=
  fun env h => (Returns (f env h), h).

Declare Scope py_scope.
Delimit Scope py_scope with py.
Notation "x <- m ;; k" := (bind m (fun x => k))
  (at level 61, m at next level, right associativity) : py_scope.
Notation "m ;; k" := (bind m (fun _ => k))
  (at level 61, right associativity) : py_scope.
Local Open Scope py_scope.

Definition raise_if_some (o : option exn) : Py unit :=
  match o with
  | None => ret tt
  | Some e => raise e
  end.

(** ** Python's dynamic operations on values *)

Fixpoint assoc (key : string) (d : list (string * pyval)) : option pyval :=
  match d with
  | [] => None
  | (k, v) :: rest => if String.eqb k key then Some v else assoc key rest
  end.

Definition type_name (v : pyval) : string :=
  match v with
  | PNone => "NoneType" | PBool _ => "bool" | PInt _ => "int"
  | PFloat _ => "float" | PComplex _ _ => "complex" | PStr _ => "str"
  | PList _ => "list" | PDict _ => "dict"
  end.

(** [v[key]] for a string [key] *)
Definition py_getitem (v : pyval) (key : string) : outcome pyval :=
  match v with
  | PDict d =>
      match assoc key d with
      | Some x => Returns x
      | None => Raises (KeyError key)
      end
  | _ => Raises (TypeError ("subscript " ++ type_name v ++ " with str"))
  end.

(** [v.get(key, default)] *)
Definition py_get (v : pyval) (key : string) (default : pyval) : outcome pyval :=
  match v with
  | PDict d =>
      match assoc key d with
      | Some x => Returns x
      | None => Returns default
      end
  | _ => Raises (AttributeError (type_name v ++ " has no attribute get"))
  end.

(** [v == s] for a string literal [s]: never raises *)
Definition py_eq_str (v : pyval) (s : string) : bool :=
  match v with
  | PStr t => String.eqb t s
  | _ => false
  end.

(** Truth value of an object, as [if v:] and [not v] test it *)
Definition py_truthy (v : pyval) : bool :=
  match v with
  | PNone => false
  | PBool b => b
  | PInt z => negb (z =? 0)%Z
  | PFloat f => negb (f =? 0)%float
  | PComplex re im => negb ((re =? 0)%float && (im =? 0)%float)
  | PStr s => negb (String.eqb s "")
  | PList l => match l with [] => false | _ => true end
  | PDict d => match d with [] => false | _ => true end
  end.

(** [str(v)], as an f-string field renders it *)
Definition py_str (env : Env) (v : pyval) : string :=
  match v with
  | PStr s => s
  | _ => repr env v
  end.

(** [str(e)] *)
Definition exn_str (env : Env) (e : exn) : string :=
  match e with
  | Exception_ msg => msg
  | LibraryError _ msg => msg
  | _ => interpreter_message env e
  end.

(** ** Numbers

    Python's numeric tower as far as JSON and float arithmetic reach:
    [bool] counts as [int]; mixed operands are converted to the wider
    kind before the operation. *)

Inductive pynum : Type :=
| NInt (z : Z)
| NFloat (f : float)
| NComplex (re im : float).

Definition as_number (v : pyval) : option pynum :=
  match v with
  | PBool b => Some (NInt (Z.b2z b))
  | PInt z => Some (NInt z)
  | PFloat f => Some (NFloat f)
  | PComplex re im => Some (NComplex re im)
  | _ => None
  end.

Definition of_number (n : pynum) : pyval :=
  match n with
  | NInt z => PInt z
  | NFloat f => PFloat f
  | NComplex re im => PComplex re im
  end.

(** [PyLong_AsDouble]: round to nearest, ties to even; an integer beyond the
    range of a double raises. *)
Definition int_to_double (z : Z) : outcome float :=
  let f := SF2Prim (binary_normalize prec emax z 0 false) in
  if is_infinity f then Raises (OverflowError "int too large to convert to float")
  else Returns f.

Definition to_double (n : pynum) : outcome float :=
  match n with
  | NInt z => int_to_double z
  | NFloat f => Returns f
  | NComplex _ _ => Raises (TypeError "complex where a real number is needed")
  end.

Definition to_complex (n : pynum) : outcome (float * float) :=
  match n with
  | NInt z =>
      match int_to_double z with
      | Returns f => Returns (f, 0%float)
      | Raises e => Raises e
      end
  | NFloat f => Returns (f, 0%float)
  | NComplex re im => Returns (re, im)
  end.

Definition is_complex (n : pynum) : bool :=
  match n with NComplex _ _ => true | _ => false end.

(** [a + b] and [a - b] on numbers *)
Definition num_arith (zop : Z -> Z -> Z) (fop : float -> float -> float)
           (a b : pynum) : outcome pynum :=
  match a, b with
  | NInt x, NInt y => Returns (NInt (zop x y))
  | _, _ =>
      if is_complex a || is_complex b then
        match to_complex a, to_complex b with
        | Returns (ar, ai), Returns (br, bi) =>
            Returns (NComplex (fop ar br) (fop ai bi))
        | Raises e, _ => Raises e
        | _, Raises e => Raises e
        end
      else
        match to_double a, to_double b with
        | Returns x, Returns y => Returns (NFloat (fop x y))
        | Raises e, _ => Raises e
        | _, Raises e => Raises e
        end
  end.

Definition num_add : pynum -> pynum -> outcome pynum := num_arith Z.add PrimFloat.add.
Definition num_sub : pynum -> pynum -> outcome pynum := num_arith Z.sub PrimFloat.sub.

(** [a - b] on values: everything JSON can hold besides numbers is rejected *)
Definition py_sub (a b : pyval) : outcome pynum :=
  match as_number a, as_number b with
  | Some x, Some y => num_sub x y
  | _, _ =>
      Raises (TypeError ("unsupported operand type(s) for -: "
                           ++ type_name a ++ " and " ++ type_name b))
  end.

(** [abs(a)] *)
Definition num_abs (env : Env) (a : pynum) : outcome pynum :=
  match a with
  | NInt z => Returns (NInt (Z.abs z))
  | NFloat f => Returns (NFloat (abs f))
  | NComplex re im =>
      match complex_abs env (re, im) with
      | Returns r => Returns (NFloat r)
      | Raises e => Raises e
      end
  end.

(** The magnitude of a float when it is a whole number *)
Definition whole_magnitude (f : float) : option Z :=
  match Prim2SF f with
  | S754_zero _ => Some 0%Z
  | S754_finite _ m e =>
      if (0 <=? e)%Z then Some (Z.pos m * 2 ^ e)%Z
      else if (Z.pos m mod 2 ^ (- e) =? 0)%Z then Some (Z.pos m / 2 ^ (- e))%Z
      else None
  | _ => None
  end.

(** [x == floor(x)] on a finite [x] *)
Definition is_whole (f : float) : bool :=
  match whole_magnitude f with Some _ => true | None => false end.

(** [DOUBLE_IS_ODD_INTEGER]: [fmod(fabs(x), 2.0) == 1.0] *)
Definition is_odd_integer (f : float) : bool :=
  match whole_magnitude f with Some n => Z.odd n | None => false end.

(** [_Py_ADJUST_ERANGE1]: an infinite result counts as a range error even
    if libm did not flag it; an underflow to zero does not count. *)
Definition adjust_erange1 (ix : float) (erange : bool) : bool :=
  if erange then negb (ix =? 0)%float else is_infinity ix.

(** [iv ** iw] on doubles: CPython's [float_pow] *)
Definition float_pow (env : Env) (iv iw : float) : outcome pynum :=
  if (iw =? 0)%float then Returns (NFloat 1)
  else if is_nan iv then Returns (NFloat iv)
  else if is_nan iw then Returns (NFloat (if (iv =? 1)%float then 1%float else iw))
  else if is_infinity iw then
    let iv := abs iv in
    if (iv =? 1)%float then Returns (NFloat 1)
    else if Bool.eqb (0 <? iw)%float (1 <? iv)%float then Returns (NFloat (abs iw))
    else Returns (NFloat 0)
  else if is_infinity iv then
    let odd := is_odd_integer iw in
    if (0 <? iw)%float then Returns (NFloat (if odd then iv else abs iv))
    else Returns (NFloat (if odd then (if (iv <? 0)%float then (-0)%float else 0%float)
                          else 0%float))
  else if (iv =? 0)%float then
    if (iw <? 0)%float then Raises (ZeroDivisionError "0.0 to a negative power")
    else Returns (NFloat (if is_odd_integer iw then iv else 0%float))
  else if (iv <? 0)%float && negb (is_whole iw) then
    match complex_pow env (iv, 0%float) (iw, 0%float) with
    | Returns (re, im) => Returns (NComplex re im)
    | Raises e => Raises e
    end
  else
    let negate_result := (iv <? 0)%float && is_odd_integer iw in
    let iv := if (iv <? 0)%float then (- iv)%float else iv in
    if (iv =? 1)%float then Returns (NFloat (if negate_result then (-1)%float else 1%float))
    else
      let (ix, erange) := libm_pow env iv iw in
      let erange := adjust_erange1 ix erange in
      let ix := if negate_result then (- ix)%float else ix in
      if erange then Raises (OverflowError "Numerical result out of range")
      else Returns (NFloat ix).

(** [a ** b] on numbers *)
Definition num_pow (env : Env) (a b : pynum) : outcome pynum :=
  match a, b with
  | NInt x, NInt y =>
      if (0 <=? y)%Z then Returns (NInt (x ^ y))
      else
        match int_to_double x, int_to_double y with
        | Returns iv, Returns iw => float_pow env iv iw
        | Raises e, _ => Raises e
        | _, Raises e => Raises e
        end
  | _, _ =>
      if is_complex a || is_complex b then
        match to_complex a, to_complex b with
        | Returns x, Returns y =>
            match complex_pow env x y with
            | Returns (re, im) => Returns (NComplex re im)
            | Raises e => Raises e
            end
        | Raises e, _ => Raises e
        | _, Raises e => Raises e
        end
      else
        match to_double a, to_double b with
        | Returns iv, Returns iw => float_pow env iv iw
        | Raises e, _ => Raises e
        | _, Raises e => Raises e
        end
  end.

(** The sign-carrying integer [n] and exponent [e] with [f = n * 2^e], for a
    finite [f] *)
Definition exact_value (f : float) : option (Z * Z) :=
  match Prim2SF f with
  | S754_zero _ => Some (0, 0)%Z
  | S754_finite s m e => Some (if s then Z.neg m else Z.pos m, e)
  | _ => None
  end.

(** [f < z] and [z < f] between a float and an integer compare the exact
    values. *)
Definition float_lt_int (f : float) (z : Z) : bool :=
  match exact_value f with
  | Some (n, e) =>
      if (0 <=? e)%Z then (n * 2 ^ e <? z)%Z else (n <? z * 2 ^ (- e))%Z
  | None => (f <? 0)%float            (* -inf is below every integer *)
  end.

Definition int_lt_float (z : Z) (f : float) : bool :=
  match exact_value f with
  | Some (n, e) =>
      if (0 <=? e)%Z then (z <? n * 2 ^ e)%Z else (z * 2 ^ (- e) <? n)%Z
  | None => (0 <? f)%float            (* +inf is above every integer *)
  end.

(** [a < b] on numbers *)
Definition num_lt (a b : pynum) : outcome bool :=
  match a, b with
  | NInt x, NInt y => Returns (x <? y)%Z
  | NFloat x, NFloat y => Returns (x <? y)%float
  | NFloat x, NInt y => Returns (float_lt_int x y)
  | NInt x, NFloat y => Returns (int_lt_float x y)
  | _, _ => Raises (TypeError "< not supported between complex and number")
  end.

(** ** Library calls *)

Definition lift_env {A} (f : Env -> outcome A) : Py A := fun env h => (f env, h).

Definition print (text : string) : Py unit := emit (Print text).

Definition newline : string := String (ascii_of_nat 10) EmptyString.

(** [datetime.datetime.now()] *)
Definition datetime_now : Py datetime :=
  now <- consult clock ;;
  emit (ClockRead now) ;;
  ret now.

(** [datetime.weekday()], Monday = 0, by the proleptic Gregorian ordinal *)
Definition is_leap (y : Z) : bool :=
  ((y mod 4 =? 0) && (negb (y mod 100 =? 0) || (y mod 400 =? 0)))%Z.

Definition days_before_year (y : Z) : Z :=
  let y := (y - 1)%Z in (y * 365 + y / 4 - y / 100 + y / 400)%Z.

Definition days_before_month (y m : Z) : Z :=
  (nth (Z.to_nat (m - 1)) [0; 31; 59; 90; 120; 151; 181; 212; 243; 273; 304; 334] 0
   + (if (2 <? m) && is_leap y then 1 else 0))%Z.

Definition toordinal (d : datetime) : Z :=
  (days_before_year (year d) + days_before_month (year d) (month d) + day d)%Z.

Definition weekday (d : datetime) : Z := ((toordinal d + 6) mod 7)%Z.

(** [requests.get(url, timeout=...)] and [response.json()] *)
Definition requests_get (url : string) (timeout : Z) : Py response :=
  emit (HttpGet url timeout) ;;
  r <- consult http_get ;;
  lift r.

Definition response_json (r : response) : Py pyval := lift (json_body r).

(** [msg[name] = value] appends a header; [msg.attach(part)] appends a part *)
Definition set_header (msg : message) (name : string) (value : pyval) : message :=
  match msg with
  | MIMEText hs t st cs => MIMEText (hs ++ [(name, value)]) t st cs
  | MIMEMultipart hs st parts => MIMEMultipart (hs ++ [(name, value)]) st parts
  end.

Definition attach (msg part : message) : outcome message :=
  match msg with
  | MIMEMultipart hs st parts => Returns (MIMEMultipart hs st (parts ++ [part]))
  | MIMEText _ _ _ _ => Raises (LibraryError "MultipartConversionError" "Cannot attach additional subparts to non-multipart/*")
  end.

(** [Message.is_multipart()] *)
Definition is_multipart (msg : message) : bool :=
  match msg with
  | MIMEMultipart _ _ _ => true
  | MIMEText _ _ _ _ => false
  end.

(** The [smtplib.SMTP] session.  [SMTP.__exit__] sends QUIT whether or not
    the body raised.  It swallows [SMTPServerDisconnected] (which is also
    what smtplib makes of a socket error while sending QUIT or reading its
    reply); any other failure of QUIT, such as a reply code other than 221,
    replaces the exception in flight. *)
Definition smtp_open (host : string) (port : Z) : Py unit :=
  emit (SmtpConnect host port) ;;
  r <- consult smtp_connect ;;
  raise_if_some r.

Definition is_server_disconnected (e : exn) : bool :=
  match e with
  | LibraryError cls _ => String.eqb cls "SMTPServerDisconnected"
  | _ => false
  end.

Definition smtp_exit : Py unit :=
  emit SmtpQuit ;;
  r <- consult smtp_quit ;;
  match r with
  | Some e => if is_server_disconnected e then ret tt else raise e
  | None => ret tt
  end.

Definition with_smtp {A} (host : string) (port : Z) (body : Py A) : Py A :=
  smtp_open host port ;;
  fun env h =>
    match body env h with
    | (Returns a, h1) =>
        match smtp_exit env h1 with
        | (Returns _, h2) => (Returns a, h2)
        | (Raises e, h2) => (Raises e, h2)
        end
    | (Raises e, h1) =>
        match smtp_exit env h1 with
        | (Returns _, h2) => (Raises e, h2)
        | (Raises e', h2) => (Raises e', h2)
        end
    end.

Definition server_starttls : Py unit :=
  emit SmtpStarttls ;;
  r <- consult smtp_starttls ;;
  raise_if_some r.

Definition server_login (user password : pyval) : Py unit :=
  emit (SmtpLogin user password) ;;
  r <- consult smtp_login ;;
  raise_if_some r.

Definition server_send_message (msg : message) : Py unit :=
  emit (SmtpSendMessage msg) ;;
  r <- consult smtp_send_message ;;
  raise_if_some r.

(** ** class ProfessorNotificationAgent *)

Record Agent : Type := mkAgent {
  school_coordinates : pyval;
  professor_email : string;
  student_id : string;
  student_name : string;
  gmail_user : pyval;
  gmail_password : pyval
}.

(** [os.getenv(name)] *)
Definition os_getenv (env : Env) (name : string) : pyval :=
  match getenv env name with
  | Some s => PStr s
  | None => PNone
  end.

Definition __init__ (env : Env) : Agent :=
  {| school_coordinates := PDict [("lat", PFloat 35.6699); ("lon", PFloat 139.7951)];
     professor_email := "kubo@logopt.com";
     student_id := "2323025";
     student_name := "鈴木夏大";
     gmail_user := os_getenv env "GMAIL_USER";
     gmail_password := os_getenv env "GMAIL_APP_PASSWORD" |}.

Definition get_location_status (self : Agent) : Py pyval :=
  emit CallLocation ;;
  try_except
    (print "DEBUG: 位置情報をチェックしています..." ;;
     response <- requests_get "http://ip-api.com/json/" 10 ;;
     data <- response_json response ;;
     status <- lift (py_getitem data "status") ;;
     if py_eq_str status "success" then
       user_lat <- lift (py_getitem data "lat") ;;
       user_lon <- lift (py_getitem data "lon") ;;
       school_lat <- lift (py_getitem (school_coordinates self) "lat") ;;
       dlat <- lift (py_sub school_lat user_lat) ;;
       lat_diff <- lift_env (fun env => num_abs env dlat) ;;
       school_lon <- lift (py_getitem (school_coordinates self) "lon") ;;
       dlon <- lift (py_sub school_lon user_lon) ;;
       lon_diff <- lift_env (fun env => num_abs env dlon) ;;
       lat_sq <- lift_env (fun env => num_pow env lat_diff (NInt 2)) ;;
       lon_sq <- lift_env (fun env => num_pow env lon_diff (NInt 2)) ;;
       sum <- lift (num_add lat_sq lon_sq) ;;
       distance <- lift_env (fun env => num_pow env sum (NFloat 0.5)) ;;
       at_school <- lift (num_lt distance (NFloat 0.01)) ;;
       city <- lift (py_get data "city" (PStr "不明")) ;;
       country <- lift (py_get data "country" (PStr "不明")) ;;
       location_desc <- ask (fun env => py_str env city ++ ", " ++ py_str env country) ;;
       ret (PDict [("status", PStr "success");
                   ("at_school", PBool at_school);
                   ("location_description", PStr location_desc);
                   ("coordinates", PDict [("lat", user_lat); ("lon", user_lon)]);
                   ("distance_from_school", of_number distance)])
     else
       raise (Exception_ "位置情報取得失敗"))
    (fun e =>
       msg <- ask (fun env => exn_str env e) ;;
       print ("ERROR: 位置情報取得エラー: " ++ msg) ;;
       ret (PDict [("status", PStr "error");
                   ("at_school", PBool false);
                   ("location_description", PStr "位置情報取得失敗（学校外として処理）");
                   ("error", PStr msg)])).

Definition send_professor_email (self : Agent)
           (professor_email_address subject body : string) : Py pyval :=
  emit (CallSend professor_email_address subject body) ;;
  try_except
    (print ("DEBUG: " ++ professor_email_address ++ " 教授にメールを送信しています...") ;;
     print ("DEBUG: 件名: " ++ subject) ;;
     print ("DEBUG: 本文: " ++ body) ;;
     if negb (py_truthy (gmail_user self)) || negb (py_truthy (gmail_password self)) then
       ret (PDict [("status", PStr "error");
                   ("message", PStr "Gmail認証情報が設定されていません (.envファイルを確認してください)")])
     else
       let msg := MIMEMultipart [] "mixed" [] in
       let msg := set_header msg "From" (gmail_user self) in
       let msg := set_header msg "To" (PStr professor_email_address) in
       let msg := set_header msg "Subject" (PStr subject) in
       msg <- lift (attach msg (MIMEText [] body "plain" "utf-8")) ;;
       with_smtp "smtp.gmail.com" 587
         (server_starttls ;;
          server_login (gmail_user self) (gmail_password self) ;;
          server_send_message msg) ;;
       ret (PDict [("status", PStr "success");
                   ("message", PStr (professor_email_address ++ " 教授にメールを送信しました。"))]))
    (fun e =>
       msg <- ask (fun env => exn_str env e) ;;
       print ("ERROR: メール送信エラー: " ++ msg) ;;
       ret (PDict [("status", PStr "error");
                   ("message", PStr ("メール送信失敗: " ++ msg))])).

Definition check_monday_1pm (self : Agent) : Py bool :=
  now <- datetime_now ;;
  let is_monday := (weekday now =? 0)%Z in
  let is_1pm := (hour now =? 13)%Z in
  ret (is_monday && is_1pm).

Definition run_notification_check (self : Agent) : Py unit :=
  started <- datetime_now ;;
  banner <- ask (fun env => datetime_str env started) ;;
  print (newline ++ "=== 通知チェック実行 " ++ banner ++ " ===") ;;
  gate <- check_monday_1pm self ;;
  if negb gate then
    current_time <- datetime_now ;;
    shown <- ask (fun env => strftime env current_time "%Y-%m-%d %H:%M:%S (%A)") ;;
    print ("現在時刻: " ++ shown) ;;
    print "月曜日13時ではないため、メール送信をスキップします。" ;;
    ret tt
  else
    print "✓ 月曜日13時です。位置情報をチェックします。" ;;
    location_result <- get_location_status self ;;
    status <- lift (py_getitem location_result "status") ;;
    (if py_eq_str status "error" then
       err <- lift (py_get location_result "error" PNone) ;;
       shown <- ask (fun env => py_str env err) ;;
       print ("⚠ 位置情報取得エラー: " ++ shown)
     else ret tt) ;;
    desc <- lift (py_getitem location_result "location_description") ;;
    shown <- ask (fun env => py_str env desc) ;;
    print ("現在地: " ++ shown) ;;
    at_school <- lift (py_getitem location_result "at_school") ;;
    print ("学校内判定: " ++ (if py_truthy at_school then "はい" else "いいえ")) ;;
    at_school <- lift (py_getitem location_result "at_school") ;;
    if py_truthy at_school then
      print "✓ 学校内にいるため、メール送信は不要です。" ;;
      ret tt
    else
      print "! 学校外にいます。教授にメールを送信します。" ;;
      let subject := "本日の授業について" in
      let body := "久保先生、" ++ student_id self ++ "の" ++ student_name self
                  ++ "です。本日の授業は体調不良のため欠席させていただきます。" in
      email_result <- send_professor_email self (professor_email self) subject body ;;
      status <- lift (py_getitem email_result "status") ;;
      if py_eq_str status "success" then
        m <- lift (py_getitem email_result "message") ;;
        shown <- ask (fun env => py_str env m) ;;
        print ("✓ " ++ shown)
      else
        m <- lift (py_getitem email_result "message") ;;
        shown <- ask (fun env => py_str env m) ;;
        print ("✗ " ++ shown).

(** * Reading a run

    Vocabulary for the statements below: the two shapes of a location
    result, the history at which the provider is asked, and the body of
    [get_location_status] read as a function of the provider's reply. *)

Definition and_then {A B} (o : outcome A) (k : A -> outcome B) : outcome B :=
  match o with
  | Returns a => k a
  | Raises e => Raises e
  end.

Notation "x <~ o ; k" := (and_then o (fun x => k))
  (at level 61, o at next level, right associativity) : py_scope.

Definition error_result (env : Env) (e : exn) : pyval :=
  PDict [("status", PStr "error");
         ("at_school", PBool false);
         ("location_description", PStr "位置情報取得失敗（学校外として処理）");
         ("error", PStr (exn_str env e))].

Definition success_result (at_school : bool) (description : string)
           (user_lat user_lon : pyval) (distance : pynum) : pyval :=
  PDict [("status", PStr "success");
         ("at_school", PBool at_school);
         ("location_description", PStr description);
         ("coordinates", PDict [("lat", user_lat); ("lon", user_lon)]);
         ("distance_from_school", of_number distance)].

(** The history at which [requests.get] is answered, for a lookup started
    at [h], and the answer it gets there *)
Definition lookup_history (h : history) : history :=
  (h ++ [CallLocation;
         Print "DEBUG: 位置情報をチェックしています...";
         HttpGet "http://ip-api.com/json/" 10])%list.

Definition provider_reply (env : Env) (h : history) : outcome response :=
  http_get env (lookup_history h).

(** Lines 45-47: the distance as the code computes it *)
Definition measured_distance (self : Agent) (env : Env)
           (user_lat user_lon : pyval) : outcome pynum :=
  school_lat <~ py_getitem (school_coordinates self) "lat" ;
  dlat <~ py_sub school_lat user_lat ;
  lat_diff <~ num_abs env dlat ;
  school_lon <~ py_getitem (school_coordinates self) "lon" ;
  dlon <~ py_sub school_lon user_lon ;
  lon_diff <~ num_abs env dlon ;
  lat_sq <~ num_pow env lat_diff (NInt 2) ;
  lon_sq <~ num_pow env lon_diff (NInt 2) ;
  sum <~ num_add lat_sq lon_sq ;
  num_pow env sum (NFloat 0.5).

(** [city, country] with the placeholder for a missing field *)
Definition describe (env : Env) (data : pyval) : outcome string :=
  city <~ py_get data "city" (PStr "不明") ;
  country <~ py_get data "country" (PStr "不明") ;
  Returns (py_str env city ++ ", " ++ py_str env country).

(** Lines 40-62: what the [try] body makes of the decoded reply *)
Definition classify (self : Agent) (env : Env) (data : pyval) : outcome pyval :=
  status <~ py_getitem data "status" ;
  if py_eq_str status "success" then
    user_lat <~ py_getitem data "lat" ;
    user_lon <~ py_getitem data "lon" ;
    distance <~ measured_distance self env user_lat user_lon ;
    at_school <~ num_lt distance (NFloat 0.01) ;
    description <~ describe env data ;
    Returns (success_result at_school description user_lat user_lon distance)
  else Raises (Exception_ "位置情報取得失敗").

Definition locate (self : Agent) (env : Env) (reply : outcome response) : outcome pyval :=
  response <~ reply ;
  data <~ json_body response ;
  classify self env data.

(** The reference point of line 18 *)
Definition lat_ref : float := 35.6699%float.
Definition lon_ref : float := 139.7951%float.

(** The distance as the specification words it: the square root of the sum
    of the squared coordinate differences, in binary64 arithmetic, each
    square a product. *)
Definition planar_distance (lat lon : float) : float :=
  sqrt ((lat_ref - lat) * (lat_ref - lat) + (lon_ref - lon) * (lon_ref - lon))%float.

(** A finite operand with an infinite result: where Python's [**] raises
    OverflowError and plain float arithmetic goes on with infinity *)
Definition overflows (x r : float) : bool := is_finite x && is_infinity r.

Definition out_of_range (lat lon : float) : bool :=
  let dlat := (lat_ref - lat)%float in
  let dlon := (lon_ref - lon)%float in
  overflows dlat (dlat * dlat)%float
  || overflows dlon (dlon * dlon)%float
  || overflows (dlat * dlat + dlon * dlon)%float (planar_distance lat lon).

Definition range_error : exn := OverflowError "Numerical result out of range".

(** The float a coordinate stands for in [school - coordinate]: a float
    itself, an [int] or [bool] converted; nothing for an integer beyond the
    doubles and for everything that is not a real number. *)
Definition coordinate_value (v : pyval) : option float :=
  match as_number v with
  | Some (NInt z) =>
      match int_to_double z with
      | Returns f => Some f
      | Raises _ => None
      end
  | Some (NFloat f) => Some f
  | _ => None
  end.

(** What the distance needs of the platform's [pow]: on a finite positive
    base the power 2 is the correctly rounded product, the power 0.5 the
    correctly rounded square root, and a range error is only flagged with
    an infinite or a zero result. *)
Definition faithful_pow (env : Env) : Prop :=
  forall x : float, is_finite x = true -> (0 <? x)%float = true ->
    fst (libm_pow env x 2%float) = (x * x)%float
    /\ fst (libm_pow env x 0.5%float) = sqrt x
    /\ (forall y : float, snd (libm_pow env x y) = true ->
        is_infinity (fst (libm_pow env x y)) = true
        \/ (fst (libm_pow env x y) =? 0)%float = true).

(** A float that carries no minus sign: not negative, and not [-0.0] *)
Definition unsigned (f : float) : bool :=
  match Prim2SF f with
  | S754_zero s | S754_infinity s | S754_finite s _ _ => negb s
  | S754_nan => true
  end.

(** Positive infinity or not a number: below no threshold *)
Definition beyond (f : float) : bool :=
  match Prim2SF f with
  | S754_infinity false | S754_nan => true
  | _ => false
  end.

Definition field_or_unknown (d : list (string * pyval)) (key : string) : pyval :=
  match assoc key d with
  | Some v => v
  | None => PStr "不明"
  end.

Definition description (env : Env) (d : list (string * pyval)) : string :=
  py_str env (field_or_unknown d "city") ++ ", "
    ++ py_str env (field_or_unknown d "country").

(** The three ways a lookup fails: the request raises, the body does not
    decode to an object with a status, or the status is not success. *)
Definition lookup_fails (reply : outcome response) : bool :=
  match reply with
  | Raises _ => true
  | Returns r =>
      match json_body r with
      | Raises _ => true
      | Returns data =>
          match py_getitem data "status" with
          | Raises _ => true
          | Returns status => negb (py_eq_str status "success")
          end
      end
  end.

(** ** Counting calls *)

Definition is_send (e : event) : bool :=
  match e with CallSend _ _ _ => true | _ => false end.

Definition is_location (e : event) : bool :=
  match e with CallLocation => true | _ => false end.

Definition is_network (e : event) : bool :=
  match e with
  | HttpGet _ _ | SmtpConnect _ _ | SmtpStarttls | SmtpLogin _ _
  | SmtpSendMessage _ | SmtpQuit => true
  | _ => false
  end.

Definition count (p : event -> bool) (h : history) : nat := length (filter p h).

Fixpoint sent_messages (h : history) : list message :=
  match h with
  | [] => []
  | SmtpSendMessage m :: rest => m :: sent_messages rest
  | _ :: rest => sent_messages rest
  end.

(** ** The stages of a run of the trigger handler started at [h] *)

(** after the banner, where [check_monday_1pm] reads the clock *)
Definition gate_history (env : Env) (h : history) : history :=
  (h ++ [ClockRead (clock env h);
         Print (newline ++ "=== 通知チェック実行 " ++ datetime_str env (clock env h) ++ " ===")])%list.

Definition gate_time (env : Env) (h : history) : datetime :=
  clock env (gate_history env h).

Definition gate_holds (env : Env) (h : history) : bool :=
  (weekday (gate_time env h) =? 0)%Z && (hour (gate_time env h) =? 13)%Z.

(** after a passed gate, where [get_location_status] is entered *)
Definition location_history (env : Env) (h : history) : history :=
  (gate_history env h ++ [ClockRead (gate_time env h);
                          Print "✓ 月曜日13時です。位置情報をチェックします。"])%list.

(** the whole run when the gate is not passed *)
Definition skip_history (env : Env) (h : history) : history :=
  let h1 := (gate_history env h ++ [ClockRead (gate_time env h)])%list in
  (h1 ++ [ClockRead (clock env h1);
          Print ("現在時刻: " ++ strftime env (clock env h1) "%Y-%m-%d %H:%M:%S (%A)");
          Print "月曜日13時ではないため、メール送信をスキップします。"])%list.

(** what the location check reports in this run *)
Definition reported (self : Agent) (env : Env) (h : history) : outcome pyval :=
  fst (get_location_status self env (location_history env h)).

Definition reported_field (self : Agent) (env : Env) (h : history) (key : string) : outcome pyval :=
  r <~ reported self env h ; py_getitem r key.

Definition reported_at_school (self : Agent) (env : Env) (h : history) : bool :=
  match reported_field self env h "at_school" with
  | Returns v => py_truthy v
  | Raises _ => false
  end.

(** ** The notification *)

Definition notice_subject : string := "本日の授業について".

Definition notice_body (self : Agent) : string :=
  "久保先生、" ++ student_id self ++ "の" ++ student_name self
    ++ "です。本日の授業は体調不良のため欠席させていただきます。".

(** The message [send_professor_email] hands to the relay *)
Definition outgoing_message (self : Agent) (to_addr subject body : string) : message :=
  MIMEMultipart [("From", gmail_user self); ("To", PStr to_addr); ("Subject", PStr subject)]
                "mixed"
                [MIMEText [] body "plain" "utf-8"].

Definition missing_credentials_result : pyval :=
  PDict [("status", PStr "error");
         ("message", PStr "Gmail認証情報が設定されていません (.envファイルを確認してください)")].

(** The events up to the opening of the SMTP session *)
Definition send_prologue (to_addr subject body : string) : history :=
  [CallSend to_addr subject body;
   Print ("DEBUG: " ++ to_addr ++ " 教授にメールを送信しています...");
   Print ("DEBUG: 件名: " ++ subject);
   Print ("DEBUG: 本文: " ++ body)].

(** A relay that accepts every step *)
Definition relay_accepts (env : Env) : Prop :=
  forall h, smtp_connect env h = None /\ smtp_starttls env h = None
            /\ smtp_login env h = None /\ smtp_send_message env h = None
            /\ smtp_quit env h = None.

(** [needle in hay] on strings *)
Fixpoint contains (needle hay : string) : bool :=
  prefix needle hay ||
  match hay with
  | EmptyString => false
  | String _ rest => contains needle rest
  end.

(** ** Sample worlds

    A platform whose [pow] is correctly rounded at the two exponents the
    agent uses, a clock that stands still, one provider reply and a relay
    that accepts everything. *)

Definition sample_pow (x y : float) : float * bool :=
  if (y =? 2)%float then ((x * x)%float, false)
  else if (y =? 0.5)%float then (sqrt x, false)
  else (nan, false).

Definition sample_env (now : datetime) (reply : outcome response)
           (user password : option string) : Env :=
  {| getenv := fun name =>
       if String.eqb name "GMAIL_USER" then user
       else if String.eqb name "GMAIL_APP_PASSWORD" then password
       else None;
     clock := fun _ => now;
     http_get := fun _ => reply;
     smtp_connect := fun _ => None;
     smtp_starttls := fun _ => None;
     smtp_login := fun _ => None;
     smtp_send_message := fun _ => None;
     smtp_quit := fun _ => None;
     libm_pow := sample_pow;
     complex_pow := fun _ _ => Raises (OverflowError "complex exponentiation");
     complex_abs := fun _ => Raises (OverflowError "absolute value too large");
     repr := fun v => "<" ++ type_name v ++ ">";
     interpreter_message := fun _ => "<interpreter message>";
     datetime_str := fun _ => "<now>";
     strftime := fun _ _ => "<now>" |}.

Definition monday_1330 : datetime := mkDatetime 2024 1 1 13 30 0 0.
Definition monday_1359 : datetime := mkDatetime 2024 1 1 13 59 59 999999.
Definition tuesday_1300 : datetime := mkDatetime 2024 1 2 13 0 0 0.

Definition success_reply (fields : list (string * pyval)) : outcome response :=
  Returns (mkResponse (Returns (PDict (("status", PStr "success") :: fields)))).

Definition far_away : list (string * pyval) :=
  [("lat", PFloat 35.0); ("lon", PFloat 140.0)].

Definition on_campus : list (string * pyval) :=
  [("lat", PFloat 35.6700); ("lon", PFloat 139.7952);
   ("city", PStr "Koto"); ("country", PStr "Japan")].

Definition fail_reply : outcome response :=
  Returns (mkResponse (Returns (PDict [("status", PStr "fail"); ("message", PStr "reserved range")]))).

(** A run of the handler, and a lookup, on a sample world *)
Definition run_on (now : datetime) (fields : list (string * pyval)) : history :=
  let env := sample_env now (success_reply fields)
                        (Some "student@gmail.com") (Some "app-password") in
  snd (run_notification_check (__init__ env) env []).

Definition located (fields : list (string * pyval)) : outcome pyval :=
  let env := sample_env monday_1330 (success_reply fields) None None in
  fst (get_location_status (__init__ env) env []).

(** ** Vocabulary for the network footprint of a call *)

Definition is_print (e : event) : bool :=
  match e with Print _ => true | _ => false end.

(** Console lines and clock reads: events that reach neither the provider
    nor the relay and enter neither method *)
Definition is_quiet (e : event) : bool :=
  match e with Print _ | ClockRead _ => true | _ => false end.

Definition network_events (h : history) : history := filter is_network h.

(** The one request [get_location_status] makes *)
Definition geo_request : event := HttpGet "http://ip-api.com/json/" 10.

(** What the [except] branch of [send_professor_email] returns and prints *)
Definition send_failure_result (env : Env) (e : exn) : pyval :=
  PDict [("status", PStr "error");
         ("message", PStr ("メール送信失敗: " ++ exn_str env e))].

Definition send_failure_line (env : Env) (e : exn) : event :=
  Print ("ERROR: メール送信エラー: " ++ exn_str env e).

Definition send_success_result (to_addr : string) : pyval :=
  PDict [("status", PStr "success");
         ("message", PStr (to_addr ++ " 教授にメールを送信しました。"))].

(** The SMTP steps of a session that got as far as [steps] of STARTTLS,
    login and send after connecting; once connected, QUIT closes it. *)
Definition session (self : Agent) (msg : message) (steps : nat) : history :=
  SmtpConnect "smtp.gmail.com" 587
  :: firstn steps [SmtpStarttls;
                   SmtpLogin (gmail_user self) (gmail_password self);
                   SmtpSendMessage msg]
  ++ [SmtpQuit].

(** The same sample world with another relay: each step's fixed answer *)
Definition with_relay (env : Env) (connect starttls login send quit : option exn) : Env :=
  {| getenv := getenv env;
     clock := clock env;
     http_get := http_get env;
     smtp_connect := fun _ => connect;
     smtp_starttls := fun _ => starttls;
     smtp_login := fun _ => login;
     smtp_send_message := fun _ => send;
     smtp_quit := fun _ => quit;
     libm_pow := libm_pow env;
     complex_pow := complex_pow env;
     complex_abs := complex_abs env;
     repr := repr env;
     interpreter_message := interpreter_message env;
     datetime_str := datetime_str env;
     strftime := strftime env |}.

Definition equipped_env (fields : list (string * pyval)) : Env :=
  sample_env monday_1330 (success_reply fields)
             (Some "student@gmail.com") (Some "app-password").

Definition refused : exn := LibraryError "ConnectionRefusedError" "Connection refused".

Definition is_http (e : event) : bool :=
  match e with HttpGet _ _ => true | _ => false end.

(** An agent whose attributes were reassigned after construction *)
Definition other_student (env : Env) : Agent :=
  {| school_coordinates := school_coordinates (__init__ env);
     professor_email := "office@example.org";
     student_id := "9900001";
     student_name := "Alex";
     gmail_user := gmail_user (__init__ env);
     gmail_password := gmail_password (__init__ env) |}.

(** ** The dialogue with the relay

    The histories at which the relay answers each step of a call started at
    [h], and the call read as a function of those answers. *)

Definition at_connect (h : history) (to_addr subject body : string) : history :=
  h ++ send_prologue to_addr subject body ++ [SmtpConnect "smtp.gmail.com" 587].

Definition at_starttls (h : history) (to_addr subject body : string) : history :=
  at_connect h to_addr subject body ++ [SmtpStarttls].

Definition at_login (self : Agent) (h : history) (to_addr subject body : string) : history :=
  at_starttls h to_addr subject body
    ++ [SmtpLogin (gmail_user self) (gmail_password self)].

Definition at_send (self : Agent) (h : history) (to_addr subject body : string) : history :=
  at_login self h to_addr subject body
    ++ [SmtpSendMessage (outgoing_message self to_addr subject body)].

(** What gets out of [SMTP.__exit__] when QUIT is answered at [hq] *)
Definition quit_escape (env : Env) (hq : history) : option exn :=
  match smtp_quit env hq with
  | Some e => if is_server_disconnected e then None else Some e
  | None => None
  end.

Definition fail_at (env : Env) (hx : history) (e : exn) : outcome pyval * history :=
  (Returns (send_failure_result env e), (hx ++ [send_failure_line env e])%list).

(** A step raised [e] inside the [with] block: QUIT, then the [except] branch *)
Definition close_after (env : Env) (hx : history) (e : exn) : outcome pyval * history :=
  let hq := (hx ++ [SmtpQuit])%list in
  match quit_escape env hq with
  | Some e' => fail_at env hq e'
  | None => fail_at env hq e
  end.

Definition dialogue (self : Agent) (to_addr subject body : string)
           (env : Env) (h : history) : outcome pyval * history :=
  let hc := at_connect h to_addr subject body in
  let ht := at_starttls h to_addr subject body in
  let hl := at_login self h to_addr subject body in
  let hs := at_send self h to_addr subject body in
  match smtp_connect env hc with
  | Some e => fail_at env hc e
  | None =>
      match smtp_starttls env ht with
      | Some e => close_after env ht e
      | None =>
          match smtp_login env hl with
          | Some e => close_after env hl e
          | None =>
              match smtp_send_message env hs with
              | Some e => close_after env hs e
              | None =>
                  let hq := (hs ++ [SmtpQuit])%list in
                  match quit_escape env hq with
                  | Some e' => fail_at env hq e'
                  | None => (Returns (send_success_result to_addr), hq)
                  end
              end
          end
      end
  end.

Definition bad_goodbye : exn :=
  LibraryError "SMTPResponseException" "(421, b'Service not available')".

Definition hung_up : exn :=
  LibraryError "SMTPServerDisconnected" "Connection unexpectedly closed".

(** * Properties *)

(** Case analysis on a scrutinee of the goal that holds no match itself *)
Ltac split_match :=
  match goal with
  | |- context [match ?x with _ => _ end] =>
      lazymatch x with
      | context [match _ with _ => _ end] => fail
      | _ => destruct x eqn:?
      end
  end.

Ltac unfold_py :=
  unfold with_smtp in *;
  unfold requests_get, response_json, print, datetime_now, smtp_open, smtp_exit,
    server_starttls, server_login, server_send_message, raise_if_some,
    try_except, bind, emit, consult, lift, lift_env, ask, ret, raise, and_then in *.

(** ** Facts on binary64 floats *)

Section FloatFacts.
Local Open Scope float_scope.

Ltac to_spec :=
  rewrite ?FloatAxioms.eqb_spec, ?ltb_spec, ?leb_spec, ?abs_spec, ?opp_spec.

Lemma abs_abs (x : float) : abs (abs x) = abs x.
Proof.
  apply Prim2SF_inj. rewrite !abs_spec. destruct (Prim2SF x); reflexivity.
Qed.

Lemma is_nan_abs (x : float) : is_nan (abs x) = is_nan x.
Proof.
  unfold is_nan. to_spec. destruct (Prim2SF x) as [s|s| |s m e]; try reflexivity.
  all: unfold SFeqb, SFcompare; destruct s; cbn;
    rewrite ?Z.compare_refl, ?Pos.compare_cont_refl; reflexivity.
Qed.

Lemma is_infinity_abs (x : float) : is_infinity (abs x) = is_infinity x.
Proof. unfold is_infinity. now rewrite abs_abs. Qed.

Lemma abs_eqb_zero (x : float) : (abs x =? 0) = (x =? 0).
Proof.
  to_spec. destruct (Prim2SF x) as [s|s| |s m e]; try reflexivity;
    destruct s; reflexivity.
Qed.

Lemma abs_ltb_zero (x : float) : (abs x <? 0) = false.
Proof.
  to_spec. destruct (Prim2SF x) as [s|s| |s m e]; reflexivity.
Qed.

Lemma SFcompare_antisym (a b : spec_float) :
  SFcompare b a = option_map CompOpp (SFcompare a b).
Proof.
  destruct a as [s|s| |s m e], b as [s'|s'| |s' m' e'];
    try destruct s; try destruct s'; try reflexivity; cbn.
  all: change (Pos.compare_cont Eq m' m) with (m' ?= m)%positive;
    change (Pos.compare_cont Eq m m') with (m ?= m')%positive.
  all: rewrite (Z.compare_antisym e e'), (Pos.compare_antisym m m').
  all: destruct (e ?= e')%Z; cbn; try reflexivity.
  all: destruct (m ?= m')%positive; reflexivity.
Qed.

(** [y <= x] rules out [x < y], also when one of them is not a number *)
Lemma leb_ltb_exclusive (x y : float) : (y <=? x) = true -> (x <? y) = false.
Proof.
  to_spec. unfold SFleb, SFltb.
  rewrite (SFcompare_antisym (Prim2SF x) (Prim2SF y)).
  destruct (SFcompare (Prim2SF x) (Prim2SF y)) as [[| |]|]; cbn; congruence.
Qed.

(** *** Signs

    A product of a float with itself and a sum of two such products carry
    no minus sign. *)

Lemma round_unsigned (m e : Z) (l : location) :
  match binary_round_aux prec emax false m e l with
  | S754_zero s | S754_infinity s | S754_finite s _ _ => negb s
  | S754_nan => true
  end = true.
Proof.
  unfold binary_round_aux.
  destruct (shr_fexp prec emax m e l) as [mrs e'].
  destruct (shr_fexp prec emax _ e' loc_Exact) as [mrs' e''].
  destruct (shr_m mrs'); [reflexivity| |reflexivity].
  now destruct (Z.leb e'' (emax - prec)).
Qed.

Lemma mul_abs (x : float) : abs x * abs x = x * x.
Proof.
  apply Prim2SF_inj. rewrite !mul_spec, abs_spec.
  destruct (Prim2SF x) as [s|s| |s m e]; try reflexivity; now destruct s.
Qed.

Lemma unsigned_square (x : float) : unsigned (x * x) = true.
Proof.
  unfold unsigned. rewrite mul_spec.
  destruct (Prim2SF x) as [s|s| |s m e]; try reflexivity; try (now destruct s).
  unfold SF64mul, SFmul. replace (xorb s s) with false by now destruct s.
  apply round_unsigned.
Qed.

Lemma unsigned_add (p q : float) :
  unsigned p = true -> unsigned q = true -> unsigned (p + q) = true.
Proof.
  unfold unsigned. rewrite add_spec.
  destruct (Prim2SF p) as [s|s| |s m e], (Prim2SF q) as [s'|s'| |s' m' e'];
    try destruct s; try destruct s'; try discriminate; try reflexivity; intros _ _.
  unfold SF64add, SFadd, cond_Zopp, binary_normalize, binary_round.
  cbn [Z.add].
  destruct (shl_align _ _ _) as [mz ez]. apply round_unsigned.
Qed.

Lemma unsigned_not_negative (s : float) : unsigned s = true -> (s <? 0) = false.
Proof.
  unfold unsigned. to_spec.
  destruct (Prim2SF s) as [b|b| |b m e]; try destruct b; try discriminate; reflexivity.
Qed.

(** *** Special values *)

Lemma nan_spec (f : float) : is_nan f = true -> Prim2SF f = S754_nan.
Proof.
  unfold is_nan. to_spec.
  destruct (Prim2SF f) as [s|s| |s m e]; try reflexivity.
  all: unfold SFeqb, SFcompare; destruct s; cbn;
    rewrite ?Z.compare_refl, ?Pos.compare_cont_refl; discriminate.
Qed.

Lemma infinity_spec (f : float) :
  is_infinity f = true -> exists s, Prim2SF f = S754_infinity s.
Proof.
  unfold is_infinity. to_spec.
  destruct (Prim2SF f) as [s|s| |s m e]; try discriminate; eauto.
Qed.

Lemma zero_spec (f : float) : (f =? 0) = true -> exists s, Prim2SF f = S754_zero s.
Proof.
  to_spec. destruct (Prim2SF f) as [s|s| |s m e]; try discriminate; eauto.
  all: destruct s; discriminate.
Qed.

Lemma one_spec (f : float) : (f =? 1) = true -> f = 1.
Proof.
  intros H. apply Prim2SF_inj. revert H. to_spec.
  destruct (Prim2SF f) as [s|s| |s m e]; try discriminate;
    destruct s; try discriminate.
  change (Prim2SF 1) with (S754_finite false 4503599627370496 (-52)).
  unfold SFeqb, SFcompare.
  destruct (e ?= -52)%Z eqn:He; try discriminate.
  apply Z.compare_eq in He. subst e.
  destruct (Pos.compare_cont Eq m 4503599627370496) eqn:Hm; try discriminate.
  apply Pos.compare_eq in Hm. now subst m.
Qed.

Lemma above_zero (a : float) :
  is_nan a = false -> (a =? 0) = false -> (a <? 0) = false -> (0 <? a) = true.
Proof.
  unfold is_nan. to_spec.
  destruct (Prim2SF a) as [s|s| |s m e]; try destruct s; try discriminate; reflexivity.
Qed.

Lemma libm_range (env : Env) (x y : float) :
  faithful_pow env -> is_finite x = true -> (0 <? x) = true ->
  adjust_erange1 (fst (libm_pow env x y)) (snd (libm_pow env x y))
  = is_infinity (fst (libm_pow env x y)).
Proof.
  intros H Hf Hp. destruct (H x Hf Hp) as (_ & _ & Hflag).
  unfold adjust_erange1. destruct (snd (libm_pow env x y)) eqn:E; [|reflexivity].
  destruct (Hflag y E) as [Hi | Hz].
  - rewrite Hi. destruct (infinity_spec _ Hi) as [s Hs].
    rewrite FloatAxioms.eqb_spec, Hs. now destruct s.
  - rewrite Hz. destruct (zero_spec _ Hz) as [s Hs].
    unfold is_infinity. to_spec. rewrite Hs. reflexivity.
Qed.

(** *** Powers

    Python's [abs(x) ** 2] and [s ** 0.5] against the product and the square
    root, on a platform whose [pow] is faithful. *)

Lemma float_pow_square (env : Env) (x : float) :
  faithful_pow env ->
  float_pow env (abs x) 2
  = if overflows x (x * x) then Raises range_error else Returns (NFloat (x * x)).
Proof.
  intros H. unfold float_pow, overflows, is_finite.
  change (2 =? 0) with false. change (is_nan 2) with false.
  change (is_infinity 2) with false. change (0 <? 2) with true.
  change (2 <? 0) with false.
  change (is_odd_integer 2) with false. change (is_whole 2) with true.
  cbn [negb andb]. rewrite !Bool.andb_false_r.
  rewrite is_nan_abs, is_infinity_abs, abs_eqb_zero, abs_ltb_zero, abs_abs.
  destruct (is_nan x) eqn:Hn.
  { cbn. do 2 f_equal. apply Prim2SF_inj.
    now rewrite abs_spec, mul_spec, (nan_spec _ Hn). }
  destruct (is_infinity x) eqn:Hi.
  { cbn. do 2 f_equal. apply Prim2SF_inj. destruct (infinity_spec _ Hi) as [s Hs].
    rewrite abs_spec, mul_spec, Hs. now destruct s. }
  cbn [orb negb andb].
  destruct (x =? 0) eqn:Hz.
  { assert (Hsq : x * x = 0).
    { apply Prim2SF_inj. destruct (zero_spec _ Hz) as [s Hs].
      rewrite mul_spec, Hs. now destruct s. }
    rewrite Hsq. reflexivity. }
  destruct (abs x =? 1) eqn:H1.
  { assert (Hsq : x * x = 1).
    { rewrite <- mul_abs, (one_spec _ H1). reflexivity. }
    rewrite Hsq. reflexivity. }
  assert (Hf : is_finite (abs x) = true).
  { unfold is_finite. now rewrite is_nan_abs, is_infinity_abs, Hn, Hi. }
  assert (Hp : (0 <? abs x) = true).
  { apply above_zero; now rewrite ?is_nan_abs, ?abs_eqb_zero, ?abs_ltb_zero. }
  pose proof (libm_range env (abs x) 2 H Hf Hp) as Hr.
  destruct (H _ Hf Hp) as (Hsq & _ & _).
  destruct (libm_pow env (abs x) 2) as [ix er]. cbn [fst snd] in *.
  rewrite Hr, Hsq, mul_abs. reflexivity.
Qed.

Lemma float_pow_root (env : Env) (s : float) :
  faithful_pow env -> unsigned s = true ->
  float_pow env s 0.5
  = if overflows s (sqrt s) then Raises range_error else Returns (NFloat (sqrt s)).
Proof.
  intros H Hu. unfold float_pow, overflows, is_finite.
  change (0.5 =? 0) with false. change (is_nan 0.5) with false.
  change (is_infinity 0.5) with false. change (0 <? 0.5) with true.
  change (0.5 <? 0) with false.
  change (is_odd_integer 0.5) with false. change (is_whole 0.5) with false.
  rewrite (unsigned_not_negative _ Hu).
  cbn [negb andb].
  destruct (is_nan s) eqn:Hn.
  { cbn. do 2 f_equal. apply Prim2SF_inj.
    now rewrite sqrt_spec, (nan_spec _ Hn). }
  destruct (is_infinity s) eqn:Hi.
  { cbn. do 2 f_equal. apply Prim2SF_inj. destruct (infinity_spec _ Hi) as [b Hs].
    revert Hu. unfold unsigned. rewrite abs_spec, sqrt_spec, Hs. now destruct b. }
  cbn [orb negb andb].
  destruct (s =? 0) eqn:Hz.
  { assert (Hsq : sqrt s = 0).
    { apply Prim2SF_inj. destruct (zero_spec _ Hz) as [b Hs].
      revert Hu. unfold unsigned. rewrite sqrt_spec, Hs. now destruct b. }
    rewrite Hsq. reflexivity. }
  destruct (s =? 1) eqn:H1.
  { rewrite (one_spec _ H1). reflexivity. }
  assert (Hf : is_finite s = true).
  { unfold is_finite. now rewrite Hn, Hi. }
  assert (Hp : (0 <? s) = true).
  { apply above_zero; auto using unsigned_not_negative. }
  pose proof (libm_range env s 0.5 H Hf Hp) as Hr.
  destruct (H _ Hf Hp) as (_ & Hsq & _).
  destruct (libm_pow env s 0.5) as [ix er]. cbn [fst snd] in *.
  rewrite Hr, Hsq. reflexivity.
Qed.

(** *** Infinite and undefined distances *)

Lemma beyond_infinite (f : float) :
  is_infinity f = true -> unsigned f = true -> beyond f = true.
Proof.
  intros Hi. destruct (infinity_spec _ Hi) as [s Hs].
  unfold unsigned, beyond. rewrite Hs. now destruct s.
Qed.

Lemma beyond_add_l (p q : float) :
  beyond p = true -> unsigned q = true -> beyond (p + q) = true.
Proof.
  unfold beyond, unsigned. rewrite add_spec.
  destruct (Prim2SF p) as [s|s| |s m e], (Prim2SF q) as [s'|s'| |s' m' e'];
    try destruct s; try destruct s'; try discriminate; reflexivity.
Qed.

Lemma beyond_add_r (p q : float) :
  unsigned p = true -> beyond q = true -> beyond (p + q) = true.
Proof.
  unfold beyond, unsigned. rewrite add_spec.
  destruct (Prim2SF p) as [s|s| |s m e], (Prim2SF q) as [s'|s'| |s' m' e'];
    try destruct s; try destruct s'; try discriminate; reflexivity.
Qed.

Lemma beyond_sqrt (s : float) : beyond s = true -> beyond (sqrt s) = true.
Proof.
  unfold beyond. rewrite sqrt_spec.
  destruct (Prim2SF s) as [b|b| |b m e]; try destruct b; try discriminate; reflexivity.
Qed.

Lemma sqrt_infinite (s : float) : is_infinity (sqrt s) = true -> beyond (sqrt s) = true.
Proof.
  intros Hi. destruct (infinity_spec _ Hi) as [b Hb].
  unfold beyond. rewrite Hb. revert Hb. rewrite sqrt_spec.
  destruct (Prim2SF s) as [c|c| |c m e]; try destruct c; try discriminate;
    try (now intros [= <-]).
  unfold SF64sqrt, SFsqrt. destruct (SFsqrt_core_binary _ _ _ _) as [[mz ez] lz].
  intros Hr. pose proof (round_unsigned mz ez lz) as Hu. rewrite Hr in Hu.
  now destruct b.
Qed.

Lemma beyond_not_below (d c : float) : beyond d = true -> (d <? c) = false.
Proof.
  unfold beyond. to_spec.
  destruct (Prim2SF d) as [b|b| |b m e]; try destruct b; try discriminate;
    intros _; unfold SFltb, SFcompare; now destruct (Prim2SF c) as [[]|[]| |[] ? ?].
Qed.

End FloatFacts.

(** ** The location checker *)

(** [get_location_status] always returns: either what [locate] returns, or
    the error result of what [locate] raises, reported on the console. *)
Lemma get_location_status_run (self : Agent) (env : Env) (h : history) :
  get_location_status self env h =
  match locate self env (provider_reply env h) with
  | Returns r => (Returns r, lookup_history h)
  | Raises e =>
      (Returns (error_result env e),
       (lookup_history h ++ [Print ("ERROR: 位置情報取得エラー: " ++ exn_str env e)])%list)
  end.
Proof.
  unfold get_location_status, locate, classify, measured_distance, describe,
    provider_reply, lookup_history, error_result, success_result.
  unfold_py.
  rewrite <- !app_assoc. cbn [app].
  repeat (split_match; try reflexivity).
Qed.

Lemma int_to_double_two : int_to_double 2 = Returns 2%float.
Proof. vm_compute. reflexivity. Qed.

Lemma py_sub_coordinate (a : float) (v : pyval) (f : float) :
  coordinate_value v = Some f -> py_sub (PFloat a) v = Returns (NFloat (a - f)).
Proof.
  unfold coordinate_value, py_sub, num_sub, num_arith.
  destruct (as_number v) as [[z|g|re im]|]; try discriminate;
    cbn [is_complex orb to_double].
  - destruct (int_to_double z); [|discriminate]. now intros [= ->].
  - now intros [= ->].
Qed.

(** On the agent as constructed and a faithful platform, the code's distance
    is the specification's, unless a square or the root overflows. *)
Lemma measured_is_planar (env : Env) (user_lat user_lon : pyval) (lat lon : float) :
  faithful_pow env ->
  coordinate_value user_lat = Some lat -> coordinate_value user_lon = Some lon ->
  measured_distance (__init__ env) env user_lat user_lon
  = if out_of_range lat lon then Raises range_error
    else Returns (NFloat (planar_distance lat lon)).
Proof.
  intros H Hlat Hlon. unfold measured_distance. cbn [__init__ school_coordinates].
  cbn [py_getitem assoc String.eqb Ascii.eqb Bool.eqb and_then].
  rewrite (py_sub_coordinate _ _ _ Hlat), (py_sub_coordinate _ _ _ Hlon).
  cbn [and_then num_abs]. unfold num_pow. cbn [is_complex orb to_double].
  rewrite int_to_double_two, !(float_pow_square env _ H).
  unfold out_of_range, planar_distance, lat_ref, lon_ref.
  destruct (overflows (35.6699 - lat) _); [reflexivity|].
  destruct (overflows (139.7951 - lon) _); [reflexivity|].
  cbn [and_then num_add num_arith is_complex orb to_double].
  rewrite (float_pow_root env _ H)
    by (apply unsigned_add; apply unsigned_square).
  reflexivity.
Qed.

(** Where the code raises, the specification's distance is infinite or not
    a number, and so below no threshold. *)
Lemma out_of_range_is_far (lat lon : float) :
  out_of_range lat lon = true -> (planar_distance lat lon <? 0.01)%float = false.
Proof.
  unfold out_of_range, overflows. intros Hr. apply beyond_not_below.
  apply Bool.orb_true_iff in Hr. destruct Hr as [Hr | Hr].
  - apply beyond_sqrt. apply Bool.orb_true_iff in Hr. destruct Hr as [Hr | Hr];
      apply Bool.andb_true_iff in Hr; destruct Hr as [_ Hi].
    + apply beyond_add_l; [apply beyond_infinite|]; auto using unsigned_square.
    + apply beyond_add_r; [|apply beyond_infinite]; auto using unsigned_square.
  - apply Bool.andb_true_iff in Hr. destruct Hr as [_ Hi]. now apply sqrt_infinite.
Qed.

Lemma sample_pow_faithful (now : datetime) (reply : outcome response)
      (user password : option string) :
  faithful_pow (sample_env now reply user password).
Proof.
  intros x _ _. cbn [libm_pow sample_env]. unfold sample_pow.
  split; [reflexivity|split; [reflexivity|]].
  intros y. now destruct (y =? 2)%float, (y =? 0.5)%float.
Qed.

Lemma describe_dict (env : Env) (d : list (string * pyval)) :
  describe env (PDict d) = Returns (description env d).
Proof.
  unfold describe, description, field_or_unknown. cbn.
  destruct (assoc "city" d), (assoc "country" d); reflexivity.
Qed.

(** What [locate] makes of a successful reply carrying both coordinates *)
Lemma locate_success (self : Agent) (env : Env)
      (d : list (string * pyval)) (user_lat user_lon : pyval) :
  assoc "status" d = Some (PStr "success") ->
  assoc "lat" d = Some user_lat -> assoc "lon" d = Some user_lon ->
  locate self env (Returns (mkResponse (Returns (PDict d)))) =
  (distance <~ measured_distance self env user_lat user_lon ;
   at_school <~ num_lt distance (NFloat 0.01) ;
   Returns (success_result at_school (description env d) user_lat user_lon distance)).
Proof.
  intros Hs Hlat Hlon. unfold locate, classify. cbn [and_then json_body py_getitem].
  rewrite Hs, Hlat, Hlon. cbn [and_then].
  change (py_eq_str (PStr "success") "success") with true. cbn iota.
  rewrite describe_dict. reflexivity.
Qed.

(** C3: on a platform whose pow is faithful (the product for the power 2,
    the square root for the power 0.5), for every successful reply carrying
    real-number coordinates (lat, lon), the agent's location result has
    at_school = (distance < 0.01) for
    distance = sqrt((lat_ref - lat) * (lat_ref - lat)
                    + (lon_ref - lon) * (lon_ref - lon))
    in binary64 arithmetic against the fixed reference point.  Unless a
    square or the root overflows, the result is the success result carrying
    that distance; when one overflows, Python raises OverflowError and the
    result is the error result (the distance is then infinite or not a
    number, and at_school is false either way).  At the reference point
    itself the distance is 0 and at_school is true; a distance of at least
    0.01 gives at_school = false. *)
Theorem location_classified_by_distance (env : Env) (h : history)
        (d : list (string * pyval)) (user_lat user_lon : pyval) (lat lon : float) :
  faithful_pow env ->
  provider_reply env h = Returns (mkResponse (Returns (PDict d))) ->
  assoc "status" d = Some (PStr "success") ->
  assoc "lat" d = Some user_lat -> assoc "lon" d = Some user_lon ->
  coordinate_value user_lat = Some lat -> coordinate_value user_lon = Some lon ->
  let result := fst (get_location_status (__init__ env) env h) in
  let distance := planar_distance lat lon in
  (r <~ result ; py_getitem r "at_school") = Returns (PBool (distance <? 0.01)%float)
  /\ (out_of_range lat lon = false ->
      result = Returns (success_result (distance <? 0.01)%float (description env d)
                                       user_lat user_lon (NFloat distance)))
  /\ (out_of_range lat lon = true -> result = Returns (error_result env range_error))
  /\ (lat = lat_ref -> lon = lon_ref ->
      distance = 0%float
      /\ result = Returns (success_result true (description env d)
                                          user_lat user_lon (NFloat 0)))
  /\ ((0.01 <=? distance)%float = true ->
      (r <~ result ; py_getitem r "at_school") = Returns (PBool false)).
Proof.
  intros Hpow Hreply Hs Hlat Hlon Vlat Vlon result distance.
  assert (Hrun : result =
                 if out_of_range lat lon then Returns (error_result env range_error)
                 else Returns (success_result (distance <? 0.01)%float (description env d)
                                              user_lat user_lon (NFloat distance))).
  { unfold result, distance. rewrite get_location_status_run, Hreply.
    rewrite (locate_success _ _ _ _ _ Hs Hlat Hlon).
    rewrite (measured_is_planar _ _ _ _ _ Hpow Vlat Vlon).
    now destruct (out_of_range lat lon). }
  assert (Hschool : (r <~ result ; py_getitem r "at_school")
                    = Returns (PBool (distance <? 0.01)%float)).
  { rewrite Hrun. destruct (out_of_range lat lon) eqn:Hr; [|reflexivity].
    unfold distance. rewrite (out_of_range_is_far _ _ Hr). reflexivity. }
  split; [exact Hschool|split; [|split; [|split]]].
  - intros Hr. now rewrite Hrun, Hr.
  - intros Hr. now rewrite Hrun, Hr.
  - intros -> ->. split; [reflexivity|]. rewrite Hrun. reflexivity.
  - intros Hfar. rewrite Hschool. now rewrite (leb_ltb_exclusive _ _ Hfar).
Qed.

Lemma location_classified_by_distance_witness :
  let env := sample_env monday_1330 (success_reply far_away) None None in
  let result := fst (get_location_status (__init__ env) env []) in
  let distance := planar_distance 35.0 140.0 in
  (r <~ result ; py_getitem r "at_school") = Returns (PBool (distance <? 0.01)%float)
  /\ (out_of_range 35.0 140.0 = false ->
      result = Returns (success_result (distance <? 0.01)%float
                          (description env (("status", PStr "success") :: far_away))
                          (PFloat 35.0) (PFloat 140.0) (NFloat distance)))
  /\ (out_of_range 35.0 140.0 = true -> result = Returns (error_result env range_error))
  /\ (35.0%float = lat_ref -> 140.0%float = lon_ref ->
      distance = 0%float
      /\ result = Returns (success_result true
                             (description env (("status", PStr "success") :: far_away))
                             (PFloat 35.0) (PFloat 140.0) (NFloat 0)))
  /\ ((0.01 <=? distance)%float = true ->
      (r <~ result ; py_getitem r "at_school") = Returns (PBool false)).
Proof.
  exact (location_classified_by_distance
           (sample_env monday_1330 (success_reply far_away) None None) []
           (("status", PStr "success") :: far_away) (PFloat 35.0) (PFloat 140.0)
           35.0%float 140.0%float
           (sample_pow_faithful _ _ _ _) eq_refl eq_refl eq_refl eq_refl eq_refl eq_refl).
Defined.

(** A coordinate whose square leaves the doubles: the formula's distance is
    infinite, Python raises, and the lookup ends in the error result. *)
Example overflowing_coordinate :
  let far := [("lat", PFloat 1e200); ("lon", PFloat 140.0)] in
  let env := sample_env monday_1330 (success_reply far) None None in
  out_of_range 1e200 140.0 = true
  /\ planar_distance 1e200 140.0 = infinity
  /\ fst (get_location_status (__init__ env) env [])
     = Returns (error_result env range_error).
Proof. vm_compute. repeat split. Qed.

(** ** The notifier *)

Lemma send_without_credentials (self : Agent) (to_addr subject body : string)
      (env : Env) (h : history) :
  py_truthy (gmail_user self) = false \/ py_truthy (gmail_password self) = false ->
  send_professor_email self to_addr subject body env h
  = (Returns missing_credentials_result, (h ++ send_prologue to_addr subject body)%list).
Proof.
  intros Hcred.
  assert (Hif : negb (py_truthy (gmail_user self)) || negb (py_truthy (gmail_password self)) = true).
  { destruct Hcred as [-> | ->]; [reflexivity | apply Bool.orb_true_r]. }
  unfold send_professor_email, send_prologue, missing_credentials_result.
  unfold_py. rewrite Hif. rewrite <- !app_assoc. reflexivity.
Qed.

Lemma sent_messages_app (h1 h2 : history) :
  sent_messages (h1 ++ h2) = (sent_messages h1 ++ sent_messages h2)%list.
Proof.
  induction h1 as [|e h1 IH]; [reflexivity|].
  destruct e; cbn; rewrite IH; reflexivity.
Qed.

Lemma count_app (p : event -> bool) (h1 h2 : history) :
  count p (h1 ++ h2) = count p h1 + count p h2.
Proof. unfold count. now rewrite filter_app, length_app. Qed.

Lemma count_cons (p : event -> bool) (e : event) (h : history) :
  count p (e :: h) = (if p e then 1 else 0) + count p h.
Proof. unfold count. cbn [filter]. now destruct (p e). Qed.

Lemma count_nil (p : event -> bool) : count p [] = 0.
Proof. reflexivity. Qed.

Ltac count_events :=
  rewrite ?count_app, ?count_cons, ?count_nil; cbn [is_send is_location is_network];
  rewrite ?count_app, ?count_cons, ?count_nil; cbn [is_send is_location is_network].

(** With credentials, the session is opened after the prologue and whatever
    is sent in it is [outgoing_message]. *)
Lemma send_with_credentials (self : Agent) (to_addr subject body : string)
      (env : Env) (h : history) :
  py_truthy (gmail_user self) = true -> py_truthy (gmail_password self) = true ->
  exists (status text : string) (tail : history),
    send_professor_email self to_addr subject body env h
    = (Returns (PDict [("status", PStr status); ("message", PStr text)]),
       (h ++ send_prologue to_addr subject body
          ++ SmtpConnect "smtp.gmail.com" 587 :: tail)%list)
    /\ count is_send tail = 0 /\ count is_location tail = 0
    /\ (forall m, In m (sent_messages tail) ->
                  m = outgoing_message self to_addr subject body)
    /\ (relay_accepts env ->
        status = "success"
        /\ tail = [SmtpStarttls;
                   SmtpLogin (gmail_user self) (gmail_password self);
                   SmtpSendMessage (outgoing_message self to_addr subject body);
                   SmtpQuit]).
Proof.
  intros Hu Hp.
  unfold send_professor_email, send_prologue, outgoing_message.
  unfold_py. rewrite Hu, Hp. cbn [negb orb set_header attach app].
  rewrite <- !app_assoc. cbn [app].
  repeat split_match;
    repeat match goal with
           | H : (_, _) = (_, _) |- _ => injection H as <- <-
           | H : Returns _ = Raises _ |- _ => discriminate H
           | H : Raises _ = Returns _ |- _ => discriminate H
           end;
    do 3 eexists;
    (split; [rewrite <- ?app_assoc; cbn [app]; reflexivity|]);
    (split; [reflexivity|]); (split; [reflexivity|]);
    (split; [cbn; intuition congruence|]);
    intros Hrelay;
    repeat match goal with
           | H : ?f env ?hh = Some _ |- _ =>
               exfalso; destruct (Hrelay hh) as (?&?&?&?&?); congruence
           end;
    (split; reflexivity).
Qed.

(** ** The shape of a location result *)

Lemma locate_returns_success (self : Agent) (env : Env) (reply : outcome response)
      (r : pyval) :
  locate self env reply = Returns r ->
  exists at_school text user_lat user_lon distance,
    r = success_result at_school text user_lat user_lon distance.
Proof.
  unfold locate, classify, and_then.
  repeat (split_match; try discriminate).
  intros [= <-]. eauto 6.
Qed.

Lemma get_location_status_shape (self : Agent) (env : Env) (h : history) :
  exists (r : pyval) (tail : history),
    get_location_status self env h = (Returns r, (h ++ CallLocation :: tail)%list)
    /\ count is_send tail = 0 /\ count is_location tail = 0
    /\ ((exists at_school text user_lat user_lon distance,
            r = success_result at_school text user_lat user_lon distance)
        \/ (exists e, r = error_result env e)).
Proof.
  rewrite get_location_status_run. unfold lookup_history.
  destruct (locate self env (provider_reply env h)) as [r|e] eqn:E.
  - eexists; eexists. split; [reflexivity|]. split; [reflexivity|]. split; [reflexivity|].
    left. exact (locate_returns_success _ _ _ _ E).
  - eexists; eexists. split; [rewrite <- app_assoc; reflexivity|].
    split; [reflexivity|]. split; [reflexivity|]. right. eauto.
Qed.

Section Lookups.
Variables (env : Env) (at_school : bool) (text : string)
          (user_lat user_lon : pyval) (distance : pynum) (e : exn).
Abbreviation ok := (success_result at_school text user_lat user_lon distance).
Abbreviation ko := (error_result env e).

Lemma success_status : py_getitem ok "status" = Returns (PStr "success").
Proof. reflexivity. Qed.
Lemma success_at_school : py_getitem ok "at_school" = Returns (PBool at_school).
Proof. reflexivity. Qed.
Lemma success_description : py_getitem ok "location_description" = Returns (PStr text).
Proof. reflexivity. Qed.
Lemma error_status : py_getitem ko "status" = Returns (PStr "error").
Proof. reflexivity. Qed.
Lemma error_at_school : py_getitem ko "at_school" = Returns (PBool false).
Proof. reflexivity. Qed.
Lemma error_description :
  py_getitem ko "location_description" = Returns (PStr "位置情報取得失敗（学校外として処理）").
Proof. reflexivity. Qed.
Lemma error_error : py_get ko "error" PNone = Returns (PStr (exn_str env e)).
Proof. reflexivity. Qed.
End Lookups.

(** [send_professor_email] always returns a status and a message, and calls
    neither method again. *)
Lemma send_professor_email_shape (self : Agent) (to_addr subject body : string)
      (env : Env) (h : history) :
  exists (status text : string) (tail : history),
    send_professor_email self to_addr subject body env h
    = (Returns (PDict [("status", PStr status); ("message", PStr text)]),
       (h ++ CallSend to_addr subject body :: tail)%list)
    /\ count is_send tail = 0 /\ count is_location tail = 0.
Proof.
  destruct (py_truthy (gmail_user self)) eqn:Hu;
    [destruct (py_truthy (gmail_password self)) eqn:Hp|].
  - destruct (send_with_credentials self to_addr subject body env h Hu Hp)
      as (status & text & tail & Hrun & Hs & Hl & _).
    exists status, text. eexists. split; [exact Hrun|].
    count_events. rewrite Hs, Hl. split; reflexivity.
  - rewrite send_without_credentials by (now right).
    do 3 eexists. split; [reflexivity|]. split; reflexivity.
  - rewrite send_without_credentials by (now left).
    do 3 eexists. split; [reflexivity|]. split; reflexivity.
Qed.

(** ** The trigger handler *)

(** Cut a list of events written out in the goal at its [CallSend] *)
Ltac split_at_send l k :=
  lazymatch l with
  | CallSend _ _ _ :: ?t => k (@nil event) t
  | ?e :: ?r => split_at_send r ltac:(fun pre t => k (e :: pre) t)
  end.

Ltac exists_around_send :=
  rewrite <- ?app_assoc; cbn [app]; rewrite <- ?app_assoc; cbn [app];
  lazymatch goal with
  | |- exists _ _, (_, (_ ++ _ :: _ :: _ :: _ :: CallLocation :: ?m ++ ?l)%list) = _ /\ _ =>
      split_at_send l ltac:(fun pre t => exists (m ++ pre)%list, t)
  end;
  split; [rewrite <- ?app_assoc; cbn [app]; reflexivity|].

(** The three ways a run of the handler goes *)
Lemma run_notification_check_cases (self : Agent) (env : Env) (h : history) :
  let run := run_notification_check self env h in
  (gate_holds env h = false /\ run = (Returns tt, skip_history env h))
  \/ (gate_holds env h = true /\ reported_at_school self env h = true
      /\ exists mid,
          run = (Returns tt, (location_history env h ++ CallLocation :: mid)%list)
          /\ count is_send mid = 0 /\ count is_location mid = 0)
  \/ (gate_holds env h = true /\ reported_at_school self env h = false
      /\ exists mid tail,
          run = (Returns tt,
                 (location_history env h ++ CallLocation :: mid
                    ++ CallSend (professor_email self) notice_subject (notice_body self)
                    :: tail)%list)
          /\ count is_send mid = 0 /\ count is_location mid = 0
          /\ count is_send tail = 0 /\ count is_location tail = 0).
Proof.
  unfold run_notification_check, check_monday_1pm, reported_at_school, reported_field,
    reported, skip_history, location_history, gate_holds, gate_time, gate_history,
    notice_subject, notice_body.
  unfold_py. rewrite <- !app_assoc. cbn [app].
  match goal with
  | |- context [if negb ?g then _ else _] => destruct g eqn:G
  end; cbn [negb]; rewrite <- ?app_assoc; cbn [app];
    [right | left; split; reflexivity].
  match goal with
  | |- context [get_location_status ?s ?e ?hh] =>
      destruct (get_location_status_shape s e hh)
        as (r & mid & Hrun & Hs & Hl & [(b & text & la & lo & di & ->) | (e' & ->)])
  end; rewrite Hrun; cbn [fst and_then].
  - rewrite success_status, success_at_school, success_description.
    change (py_eq_str (PStr "success") "error") with false. cbn [py_truthy].
    destruct b.
    + left. split; [reflexivity|]. split; [reflexivity|].
      eexists. split; [rewrite <- !app_assoc; cbn [app]; reflexivity|].
      count_events. rewrite ?Hs, ?Hl. split; reflexivity.
    + right. split; [reflexivity|]. split; [reflexivity|].
      match goal with
      | |- context [send_professor_email ?s ?a ?sb ?bd ?e ?hh] =>
          destruct (send_professor_email_shape s a sb bd e hh)
            as (st & msg & tail & Hsend & Hts & Htl)
      end; rewrite Hsend.
      cbn [py_getitem assoc]. change ("status" =? "status")%string with true. cbn iota.
      change ("status" =? "message")%string with false.
      change ("message" =? "message")%string with true. cbn iota.
      destruct (py_eq_str (PStr st) "success"); exists_around_send;
        count_events; rewrite ?Hs, ?Hl, ?Hts, ?Htl; repeat split; reflexivity.
  - rewrite error_status, error_at_school, error_description, error_error.
    change (py_eq_str (PStr "error") "error") with true. cbn [py_truthy].
    right. split; [reflexivity|]. split; [reflexivity|].
    match goal with
    | |- context [send_professor_email ?s ?a ?sb ?bd ?e ?hh] =>
        destruct (send_professor_email_shape s a sb bd e hh)
          as (st & msg & tail & Hsend & Hts & Htl)
    end; rewrite Hsend.
    cbn [py_getitem assoc]. change ("status" =? "status")%string with true. cbn iota.
    change ("status" =? "message")%string with false.
    change ("message" =? "message")%string with true. cbn iota.
    destruct (py_eq_str (PStr st) "success"); exists_around_send;
      count_events; rewrite ?Hs, ?Hl, ?Hts, ?Htl; repeat split; reflexivity.
Qed.

Lemma count_location_history (p : event -> bool) (env : Env) (h : history) :
  (forall d, p (ClockRead d) = false) -> (forall t, p (Print t) = false) ->
  count p (location_history env h) = count p h.
Proof.
  intros Hc Hp. unfold location_history, gate_history.
  rewrite !count_app, !count_cons, !count_nil, !Hc, !Hp. lia.
Qed.

Lemma count_skip_history (p : event -> bool) (env : Env) (h : history) :
  (forall d, p (ClockRead d) = false) -> (forall t, p (Print t) = false) ->
  count p (skip_history env h) = count p h.
Proof.
  intros Hc Hp. unfold skip_history, gate_history.
  rewrite !count_app, !count_cons, !count_nil, !Hc, !Hp. lia.
Qed.

(** An error status always comes with at_school = false. *)
Lemma error_status_means_absent (self : Agent) (env : Env) (h : history) :
  reported_field self env h "status" = Returns (PStr "error") ->
  reported_at_school self env h = false.
Proof.
  unfold reported_at_school, reported_field, reported.
  destruct (get_location_status_shape self env (location_history env h))
    as (r & mid & -> & _ & _ & [(b & text & la & lo & di & ->) | (e & ->)]);
    cbn [fst and_then].
  - rewrite success_status. discriminate.
  - now rewrite error_at_school.
Qed.

(** C1: in every run of the trigger handler the notifier is entered exactly
    once when the day/hour gate holds and the location result has
    at_school = false, in particular when its status is error, and is not
    entered at all otherwise, so never when at_school = true. *)
Theorem notifier_called_once_iff_gate_and_absent (self : Agent) (env : Env) (h : history) :
  let after := snd (run_notification_check self env h) in
  count is_send after
  = count is_send h
    + (if gate_holds env h && negb (reported_at_school self env h) then 1 else 0)
  /\ (reported_at_school self env h = true -> count is_send after = count is_send h)
  /\ (gate_holds env h = true ->
      reported_field self env h "status" = Returns (PStr "error") ->
      count is_send after = count is_send h + 1).
Proof.
  intros after.
  assert (Hcount : count is_send after
                   = count is_send h
                     + (if gate_holds env h && negb (reported_at_school self env h)
                        then 1 else 0)).
  { unfold after.
    destruct (run_notification_check_cases self env h)
      as [(G & ->) | [(G & A & mid & -> & Hs & _) | (G & A & mid & tail & -> & Hs & _ & Ht & _)]];
      rewrite G, ?A; cbn [snd andb negb].
    - rewrite count_skip_history by reflexivity. lia.
    - rewrite count_app, count_cons, count_location_history, Hs by reflexivity.
      cbn [is_send]. lia.
    - rewrite count_app, count_cons, count_app, count_cons, count_location_history, Hs, Ht
        by reflexivity.
      cbn [is_send]. lia. }
  split; [exact Hcount|split].
  - intros A. rewrite Hcount, A, Bool.andb_false_r. lia.
  - intros G E. rewrite Hcount, G, (error_status_means_absent _ _ _ E). reflexivity.
Qed.

(** C5: the trigger handler returns normally on every path, and so do the
    location check and the e-mail send: each hands back a result value and
    lets no exception out. *)
Theorem handler_never_raises (self : Agent) (env : Env) (h : history) :
  (exists h', run_notification_check self env h = (Returns tt, h'))
  /\ (exists r h', get_location_status self env h = (Returns r, h'))
  /\ (forall to_addr subject body,
        exists r h', send_professor_email self to_addr subject body env h = (Returns r, h')).
Proof.
  split; [|split].
  - destruct (run_notification_check_cases self env h)
      as [(_ & ->) | [(_ & _ & mid & -> & _) | (_ & _ & mid & tail & -> & _)]]; eauto.
  - destruct (get_location_status_shape self env h) as (r & tail & -> & _). eauto.
  - intros to_addr subject body.
    destruct (send_professor_email_shape self to_addr subject body env h)
      as (st & msg & tail & -> & _). eauto.
Qed.

(** C6: when the clock reading at the gate is not a Monday or its hour is
    not 13, the handler logs and returns: it enters neither the location
    check nor the notifier and makes no network call. *)
Theorem off_slot_run_does_nothing (self : Agent) (env : Env) (h : history) :
  weekday (gate_time env h) <> 0%Z \/ hour (gate_time env h) <> 13%Z ->
  run_notification_check self env h = (Returns tt, skip_history env h)
  /\ count is_location (skip_history env h) = count is_location h
  /\ count is_send (skip_history env h) = count is_send h
  /\ count is_network (skip_history env h) = count is_network h.
Proof.
  intros Hoff.
  assert (G : gate_holds env h = false).
  { unfold gate_holds. apply Bool.andb_false_iff.
    destruct Hoff as [Hd | Hh]; [left | right]; now apply Z.eqb_neq. }
  split.
  - destruct (run_notification_check_cases self env h)
      as [(_ & ->) | [(G' & _) | (G' & _)]]; congruence.
  - repeat split; apply count_skip_history; reflexivity.
Qed.

Lemma off_slot_run_does_nothing_witness :
  let env := sample_env tuesday_1300 (success_reply far_away) None None in
  let self := __init__ env in
  run_notification_check self env [] = (Returns tt, skip_history env [])
  /\ count is_location (skip_history env []) = count is_location []
  /\ count is_send (skip_history env []) = count is_send []
  /\ count is_network (skip_history env []) = count is_network [].
Proof.
  apply (off_slot_run_does_nothing
           (__init__ (sample_env tuesday_1300 (success_reply far_away) None None))
           (sample_env tuesday_1300 (success_reply far_away) None None) []).
  left. vm_compute. discriminate.
Defined.

(** C8: whenever the handler decides to send, the one call of the notifier
    carries the professor's address, the subject line, and a body holding
    the student identifier and the student name. *)
Theorem notice_addressed_to_professor (env : Env) (h : history) :
  gate_holds env h = true ->
  reported_at_school (__init__ env) env h = false ->
  exists before body after,
    snd (run_notification_check (__init__ env) env h)
    = (h ++ before ++ CallSend "kubo@logopt.com" "本日の授業について" body :: after)%list
    /\ count is_send before = 0 /\ count is_send after = 0
    /\ contains "2323025" body = true
    /\ contains "鈴木夏大" body = true.
Proof.
  intros G A.
  destruct (run_notification_check_cases (__init__ env) env h)
    as [(G' & _) | [(_ & A' & _) | (_ & _ & mid & tail & -> & Hs & _ & Ht & _)]];
    try congruence.
  unfold location_history, gate_history. cbn [snd].
  eexists (_ :: _ :: _ :: _ :: CallLocation :: mid)%list, _, tail.
  split; [rewrite <- !app_assoc; reflexivity|].
  split; [count_events; exact Hs|].
  split; [exact Ht|].
  split; vm_compute; reflexivity.
Qed.

Lemma notice_addressed_to_professor_witness :
  let env := sample_env monday_1330 (success_reply far_away)
                        (Some "student@gmail.com") (Some "app-password") in
  exists before body after,
    snd (run_notification_check (__init__ env) env [])
    = ([] ++ before ++ CallSend "kubo@logopt.com" "本日の授業について" body :: after)%list
    /\ count is_send before = 0 /\ count is_send after = 0
    /\ contains "2323025" body = true
    /\ contains "鈴木夏大" body = true.
Proof.
  apply (notice_addressed_to_professor
           (sample_env monday_1330 (success_reply far_away)
                       (Some "student@gmail.com") (Some "app-password")) []);
    vm_compute; reflexivity.
Defined.

(** ** Failures of the lookup *)

Lemma failed_lookup_raises (self : Agent) (env : Env) (reply : outcome response) :
  lookup_fails reply = true -> exists e, locate self env reply = Raises e.
Proof.
  unfold lookup_fails, locate, classify, and_then.
  destruct reply as [[[data|e]]|e]; cbn [json_body]; eauto.
  destruct (py_getitem data "status") as [status|e]; eauto.
  destruct (py_eq_str status "success"); [discriminate|eauto].
Qed.

(** C2: when the lookup fails (the request raises, the body does not decode
    to an object with a status, or the status is not success) the location
    check returns the error result: status error, at_school false and a
    description noting the failure.  On no reply at all does it raise, or
    return at_school = true together with status error. *)
Theorem failed_lookup_reports_absent (self : Agent) (env : Env) (h : history) :
  lookup_fails (provider_reply env h) = true ->
  (exists e,
     get_location_status self env h
     = (Returns (error_result env e),
        (lookup_history h ++ [Print ("ERROR: 位置情報取得エラー: " ++ exn_str env e)])%list)
     /\ py_getitem (error_result env e) "status" = Returns (PStr "error")
     /\ py_getitem (error_result env e) "at_school" = Returns (PBool false)
     /\ py_getitem (error_result env e) "location_description"
        = Returns (PStr "位置情報取得失敗（学校外として処理）"))
  /\ (forall h0, exists r,
        fst (get_location_status self env h0) = Returns r
        /\ (py_getitem r "status" = Returns (PStr "error") ->
            py_getitem r "at_school" = Returns (PBool false))).
Proof.
  intros Hfail. split.
  - destruct (failed_lookup_raises self env _ Hfail) as (e & He).
    exists e. rewrite get_location_status_run, He. repeat split.
  - intros h0.
    destruct (get_location_status_shape self env h0)
      as (r & tail & -> & _ & _ & [(b & text & la & lo & di & ->) | (e & ->)]);
      eexists; (split; [reflexivity|]).
    + rewrite success_status. discriminate.
    + intros _. apply error_at_school.
Qed.

Lemma failed_lookup_reports_absent_witness :
  let env := sample_env monday_1330 fail_reply None None in
  (exists e,
     get_location_status (__init__ env) env []
     = (Returns (error_result env e),
        (lookup_history [] ++ [Print ("ERROR: 位置情報取得エラー: " ++ exn_str env e)])%list)
     /\ py_getitem (error_result env e) "status" = Returns (PStr "error")
     /\ py_getitem (error_result env e) "at_school" = Returns (PBool false)
     /\ py_getitem (error_result env e) "location_description"
        = Returns (PStr "位置情報取得失敗（学校外として処理）"))
  /\ (forall h0, exists r,
        fst (get_location_status (__init__ env) env h0) = Returns r
        /\ (py_getitem r "status" = Returns (PStr "error") ->
            py_getitem r "at_school" = Returns (PBool false))).
Proof.
  exact (failed_lookup_reports_absent
           (__init__ (sample_env monday_1330 fail_reply None None))
           (sample_env monday_1330 fail_reply None None) [] eq_refl).
Defined.

(** The other two kinds of failure, on the same sample world *)
Example network_error_fails :
  lookup_fails (Raises (LibraryError "ConnectionError" "Max retries exceeded")) = true.
Proof. reflexivity. Qed.

Example malformed_body_fails :
  lookup_fails (Returns (mkResponse (Raises (LibraryError "JSONDecodeError" "Expecting value"))))
  = true
  /\ lookup_fails (Returns (mkResponse (Returns (PList [])))) = true
  /\ lookup_fails (Returns (mkResponse (Returns (PDict [("lat", PFloat 35.0)])))) = true.
Proof. repeat split. Qed.

(** C9: on a reply with status success, the city and country fields only
    feed the description, where a missing one reads as the placeholder, so
    the result is still a success; a missing lat or lon makes the result
    the error result, with at_school false. *)
Theorem missing_fields (self : Agent) (env : Env) (h : history)
        (d : list (string * pyval)) :
  provider_reply env h = Returns (mkResponse (Returns (PDict d))) ->
  assoc "status" d = Some (PStr "success") ->
  let result := fst (get_location_status self env h) in
  (assoc "lat" d = None \/ assoc "lon" d = None ->
   exists key,
     result = Returns (error_result env (KeyError key))
     /\ (r <~ result ; py_getitem r "status") = Returns (PStr "error")
     /\ (r <~ result ; py_getitem r "at_school") = Returns (PBool false))
  /\ (forall user_lat user_lon distance at_school,
        assoc "lat" d = Some user_lat -> assoc "lon" d = Some user_lon ->
        measured_distance self env user_lat user_lon = Returns distance ->
        num_lt distance (NFloat 0.01) = Returns at_school ->
        result = Returns (success_result at_school (description env d)
                                         user_lat user_lon distance)
        /\ (r <~ result ; py_getitem r "status") = Returns (PStr "success"))
  /\ (assoc "city" d = None ->
      description env d = "不明, " ++ py_str env (field_or_unknown d "country"))
  /\ (assoc "country" d = None ->
      description env d = py_str env (field_or_unknown d "city") ++ ", 不明").
Proof.
  intros Hreply Hs result. unfold result.
  rewrite get_location_status_run, Hreply.
  split; [|split; [|split]].
  - intros Hmiss.
    assert (exists key, locate self env (Returns (mkResponse (Returns (PDict d))))
                        = Raises (KeyError key)) as (key & ->).
    { unfold locate, classify. cbn [and_then json_body py_getitem]. rewrite Hs.
      cbn [and_then]. change (py_eq_str (PStr "success") "success") with true. cbn iota.
      destruct (assoc "lat" d) eqn:Elat; cbn [and_then]; [|eauto].
      destruct Hmiss as [Hm | ->]; [discriminate|]. cbn [and_then]. eauto. }
    exists key. repeat split.
  - intros user_lat user_lon distance at_school Hlat Hlon Hd Hlt.
    rewrite (locate_success _ _ _ _ _ Hs Hlat Hlon), Hd. cbn [and_then fst].
    rewrite Hlt. cbn [and_then fst]. split; reflexivity.
  - intros Hc. unfold description, field_or_unknown. rewrite Hc. reflexivity.
  - intros Hc. unfold description, field_or_unknown at 2. rewrite Hc. reflexivity.
Qed.

Lemma missing_fields_witness :
  let env := sample_env monday_1330 (success_reply far_away) None None in
  let d := ("status", PStr "success") :: far_away in
  let result := fst (get_location_status (__init__ env) env []) in
  (assoc "lat" d = None \/ assoc "lon" d = None ->
   exists key,
     result = Returns (error_result env (KeyError key))
     /\ (r <~ result ; py_getitem r "status") = Returns (PStr "error")
     /\ (r <~ result ; py_getitem r "at_school") = Returns (PBool false))
  /\ (forall user_lat user_lon distance at_school,
        assoc "lat" d = Some user_lat -> assoc "lon" d = Some user_lon ->
        measured_distance (__init__ env) env user_lat user_lon = Returns distance ->
        num_lt distance (NFloat 0.01) = Returns at_school ->
        result = Returns (success_result at_school (description env d)
                                         user_lat user_lon distance)
        /\ (r <~ result ; py_getitem r "status") = Returns (PStr "success"))
  /\ (assoc "city" d = None ->
      description env d = "不明, " ++ py_str env (field_or_unknown d "country"))
  /\ (assoc "country" d = None ->
      description env d = py_str env (field_or_unknown d "city") ++ ", 不明").
Proof.
  exact (missing_fields
           (__init__ (sample_env monday_1330 (success_reply far_away) None None))
           (sample_env monday_1330 (success_reply far_away) None None) []
           (("status", PStr "success") :: far_away) eq_refl eq_refl).
Defined.

(** ** Credentials and the message *)

(** C4: when a loaded credential is absent (or empty), the notifier returns
    the error result at once: after its three console lines nothing more
    happens, so no SMTP connection is opened and no network call is made. *)
Theorem missing_credentials_stop_before_network (self : Agent)
        (to_addr subject body : string) (env : Env) (h : history) :
  py_truthy (gmail_user self) = false \/ py_truthy (gmail_password self) = false ->
  send_professor_email self to_addr subject body env h
  = (Returns missing_credentials_result, (h ++ send_prologue to_addr subject body)%list)
  /\ py_getitem missing_credentials_result "status" = Returns (PStr "error")
  /\ count is_network (h ++ send_prologue to_addr subject body) = count is_network h.
Proof.
  intros Hcred. split; [now apply send_without_credentials|].
  split; [reflexivity|].
  unfold send_prologue. count_events. lia.
Qed.

Lemma missing_credentials_stop_before_network_witness :
  let env := sample_env monday_1330 (success_reply far_away) None None in
  send_professor_email (__init__ env) "kubo@logopt.com" "subject" "body" env []
  = (Returns missing_credentials_result,
     ([] ++ send_prologue "kubo@logopt.com" "subject" "body")%list)
  /\ py_getitem missing_credentials_result "status" = Returns (PStr "error")
  /\ count is_network ([] ++ send_prologue "kubo@logopt.com" "subject" "body")
     = count is_network [].
Proof.
  apply (missing_credentials_stop_before_network
           (__init__ (sample_env monday_1330 (success_reply far_away) None None))
           "kubo@logopt.com" "subject" "body"
           (sample_env monday_1330 (success_reply far_away) None None) []).
  left. reflexivity.
Defined.

(** C7 as stated fails: with credentials present, the message handed to the
    relay is a multipart container, not a single-part message. *)
Lemma sent_message_is_multipart :
  let env := sample_env monday_1330 (success_reply far_away)
                        (Some "student@gmail.com") (Some "app-password") in
  let self := __init__ env in
  py_truthy (gmail_user self) = true
  /\ py_truthy (gmail_password self) = true
  /\ map is_multipart
         (sent_messages
            (snd (send_professor_email self "kubo@logopt.com" notice_subject
                                       (notice_body self) env [])))
     = [true].
Proof. vm_compute. repeat split. Qed.

(** C7, amended: with credentials present, the notifier builds, before it
    opens the SMTP session, a multipart/mixed message whose headers are
    From (the loaded user), To and Subject (as passed) and whose only part
    is the body as text/plain in utf-8; nothing else is ever handed to the
    relay, and a relay that accepts every step receives exactly it. *)
Theorem message_has_one_plain_text_part (self : Agent)
        (to_addr subject body : string) (env : Env) (h : history) :
  py_truthy (gmail_user self) = true -> py_truthy (gmail_password self) = true ->
  let msg := outgoing_message self to_addr subject body in
  is_multipart msg = true
  /\ msg = MIMEMultipart [("From", gmail_user self); ("To", PStr to_addr);
                          ("Subject", PStr subject)]
                         "mixed" [MIMEText [] body "plain" "utf-8"]
  /\ exists (status text : string) (tail : history),
      send_professor_email self to_addr subject body env h
      = (Returns (PDict [("status", PStr status); ("message", PStr text)]),
         (h ++ send_prologue to_addr subject body
            ++ SmtpConnect "smtp.gmail.com" 587 :: tail)%list)
      /\ (forall m, In m (sent_messages tail) -> m = msg)
      /\ (relay_accepts env ->
          status = "success"
          /\ tail = [SmtpStarttls;
                     SmtpLogin (gmail_user self) (gmail_password self);
                     SmtpSendMessage msg;
                     SmtpQuit]).
Proof.
  intros Hu Hp msg. split; [reflexivity|]. split; [reflexivity|].
  destruct (send_with_credentials self to_addr subject body env h Hu Hp)
    as (status & text & tail & Hrun & _ & _ & Hsent & Hok).
  exists status, text, tail. auto.
Qed.

Lemma message_has_one_plain_text_part_witness :
  let env := sample_env monday_1330 (success_reply far_away)
                        (Some "student@gmail.com") (Some "app-password") in
  let self := __init__ env in
  let msg := outgoing_message self "kubo@logopt.com" "subject" "body" in
  is_multipart msg = true
  /\ msg = MIMEMultipart [("From", gmail_user self); ("To", PStr "kubo@logopt.com");
                          ("Subject", PStr "subject")]
                         "mixed" [MIMEText [] "body" "plain" "utf-8"]
  /\ exists (status text : string) (tail : history),
      send_professor_email self "kubo@logopt.com" "subject" "body" env []
      = (Returns (PDict [("status", PStr status); ("message", PStr text)]),
         ([] ++ send_prologue "kubo@logopt.com" "subject" "body"
            ++ SmtpConnect "smtp.gmail.com" 587 :: tail)%list)
      /\ (forall m, In m (sent_messages tail) -> m = msg)
      /\ (relay_accepts env ->
          status = "success"
          /\ tail = [SmtpStarttls;
                     SmtpLogin (gmail_user self) (gmail_password self);
                     SmtpSendMessage msg;
                     SmtpQuit]).
Proof.
  exact (message_has_one_plain_text_part
           (__init__ (sample_env monday_1330 (success_reply far_away)
                                 (Some "student@gmail.com") (Some "app-password")))
           "kubo@logopt.com" "subject" "body"
           (sample_env monday_1330 (success_reply far_away)
                       (Some "student@gmail.com") (Some "app-password")) []
           eq_refl eq_refl).
Defined.

(** The sample relay accepts every step, so the last clause above is not
    vacuous. *)
Example sample_relay_accepts (now : datetime) (reply : outcome response)
        (user password : option string) :
  relay_accepts (sample_env now reply user password).
Proof. intros h. repeat split. Qed.

(** ** The time gate *)

(** The weekday is a matter of the date alone. *)
Lemma weekday_of_date (y mo d hh mi s us : Z) :
  weekday (mkDatetime y mo d hh mi s us) = weekday (mkDatetime y mo d 0 0 0 0).
Proof. reflexivity. Qed.

(** C10: the gate passes at every clock reading whose date is a Monday and
    whose hour is 13, whatever its minute, second and microsecond. *)
Theorem gate_passes_throughout_the_hour (self : Agent) (env : Env) (h : history)
        (y mo d mi s us : Z) :
  clock env h = mkDatetime y mo d 13 mi s us ->
  weekday (mkDatetime y mo d 0 0 0 0) = 0%Z ->
  check_monday_1pm self env h = (Returns true, (h ++ [ClockRead (clock env h)])%list).
Proof.
  intros Hnow Hmon. unfold check_monday_1pm. unfold_py.
  rewrite Hnow, (weekday_of_date y mo d 13 mi s us), Hmon. reflexivity.
Qed.

Lemma gate_passes_throughout_the_hour_witness :
  let env := sample_env monday_1359 (success_reply far_away) None None in
  check_monday_1pm (__init__ env) env []
  = (Returns true, ([] ++ [ClockRead (clock env [])])%list).
Proof.
  exact (gate_passes_throughout_the_hour
           (__init__ (sample_env monday_1359 (success_reply far_away) None None))
           (sample_env monday_1359 (success_reply far_away) None None) []
           2024 1 1 59 59 999999 eq_refl eq_refl).
Defined.

(** * The scenarios of the specification, run on the sample worlds *)

(** At the reference point: distance 0, present. *)
Example at_reference_point :
  located [("lat", PFloat 35.6699); ("lon", PFloat 139.7951)]
  = Returns (success_result true "不明, 不明" (PFloat 35.6699) (PFloat 139.7951) (NFloat 0)).
Proof. vm_compute. reflexivity. Qed.

(** (35.6700, 139.7952): present, so a Monday 13:30 run sends nothing. *)
Example on_campus_is_present :
  (r <~ located on_campus ; py_getitem r "at_school") = Returns (PBool true)
  /\ (r <~ located on_campus ; py_getitem r "location_description")
     = Returns (PStr "Koto, Japan")
  /\ count is_send (run_on monday_1330 on_campus) = 0
  /\ count is_location (run_on monday_1330 on_campus) = 1.
Proof. vm_compute. repeat split. Qed.

(** (35.0, 140.0): absent, so the run sends one notice through the relay. *)
Example far_away_is_absent :
  (r <~ located far_away ; py_getitem r "at_school") = Returns (PBool false)
  /\ count is_send (run_on monday_1330 far_away) = 1
  /\ length (sent_messages (run_on monday_1330 far_away)) = 1.
Proof. vm_compute. repeat split. Qed.

(** The same reply on a Tuesday at 13:00: nothing is looked up or sent. *)
Example tuesday_is_skipped :
  count is_location (run_on tuesday_1300 far_away) = 0
  /\ count is_send (run_on tuesday_1300 far_away) = 0
  /\ count is_network (run_on tuesday_1300 far_away) = 0.
Proof. vm_compute. repeat split. Qed.

(** An integer coordinate is converted; a missing or non-numeric one, or a
    square beyond the float range, ends in the error result. *)
Example integer_coordinate :
  (r <~ located [("lat", PInt 35); ("lon", PInt 140)] ; py_getitem r "status")
  = Returns (PStr "success").
Proof. vm_compute. reflexivity. Qed.

Example unusable_coordinates :
  (r <~ located [("lat", PFloat 35.0)] ; py_getitem r "status") = Returns (PStr "error")
  /\ (r <~ located [("lat", PStr "35.0"); ("lon", PFloat 140.0)] ; py_getitem r "status")
     = Returns (PStr "error")
  /\ (r <~ located [("lat", PFloat 1e200); ("lon", PFloat 140.0)] ; py_getitem r "at_school")
     = Returns (PBool false).
Proof. vm_compute. repeat split. Qed.

(** * Further properties of the notifier (lines 74-113) *)

Ltac close_history :=
  unfold session, send_prologue, send_failure_line, send_failure_result,
    send_success_result, outgoing_message;
  rewrite <- ?app_assoc; cbn [app firstn]; reflexivity.

(** Every way a call with credentials ends: the sent message and a success,
    a refused connection, or a session cut short after one, two or three
    steps; each failure is printed and returned as the error result. *)
Lemma send_session (self : Agent) (to_addr subject body : string)
      (env : Env) (h : history) :
  py_truthy (gmail_user self) = true -> py_truthy (gmail_password self) = true ->
  let msg := outgoing_message self to_addr subject body in
  let run := send_professor_email self to_addr subject body env h in
  run = (Returns (send_success_result to_addr),
         (h ++ send_prologue to_addr subject body ++ session self msg 3)%list)
  \/ (exists e steps,
        1 <= steps <= 3
        /\ run = (Returns (send_failure_result env e),
                  (h ++ send_prologue to_addr subject body
                     ++ session self msg steps ++ [send_failure_line env e])%list))
  \/ (exists e,
        run = (Returns (send_failure_result env e),
               (h ++ send_prologue to_addr subject body
                  ++ [SmtpConnect "smtp.gmail.com" 587; send_failure_line env e])%list)).
Proof.
  intros Hu Hp msg run. unfold run, msg, send_professor_email.
  unfold_py. rewrite Hu, Hp. cbn [negb orb set_header attach app].
  rewrite <- !app_assoc. cbn [app].
  repeat split_match;
    repeat match goal with
           | H : (_, _) = (_, _) |- _ => injection H as <- <-
           | H : Returns _ = Raises _ |- _ => discriminate H
           | H : Raises _ = Returns _ |- _ => discriminate H
           end;
    first [ left; close_history
          | right; right; eexists; close_history
          | right; left; eexists; exists 1; split; [lia | close_history]
          | right; left; eexists; exists 2; split; [lia | close_history]
          | right; left; eexists; exists 3; split; [lia | close_history] ].
Qed.

Lemma network_events_app (h1 h2 : history) :
  network_events (h1 ++ h2) = (network_events h1 ++ network_events h2)%list.
Proof. apply filter_app. Qed.

(** Only network events carry messages. *)
Lemma sent_messages_network (l : history) :
  sent_messages (network_events l) = sent_messages l.
Proof.
  induction l as [|e l IH]; [reflexivity|].
  destruct e; cbn [network_events filter is_network sent_messages];
    fold (network_events l); now rewrite ?IH.
Qed.

Lemma network_events_prologue (to_addr subject body : string) :
  network_events (send_prologue to_addr subject body) = [].
Proof. reflexivity. Qed.

Lemma network_events_session (self : Agent) (msg : message) (steps : nat) :
  network_events (session self msg steps) = session self msg steps.
Proof.
  unfold session. destruct steps as [|[|[|[|n]]]]; reflexivity.
Qed.

(** The network events of one call of the notifier *)
Lemma send_network_events (self : Agent) (to_addr subject body : string)
      (env : Env) (h : history) :
  exists new,
    snd (send_professor_email self to_addr subject body env h) = (h ++ new)%list
    /\ In (network_events new)
          ([] :: [SmtpConnect "smtp.gmail.com" 587]
              :: map (session self (outgoing_message self to_addr subject body)) [1; 2; 3]).
Proof.
  destruct (py_truthy (gmail_user self)) eqn:Hu;
    [destruct (py_truthy (gmail_password self)) eqn:Hp|].
  - destruct (send_session self to_addr subject body env h Hu Hp)
      as [-> | [(e & steps & Hsteps & ->) | (e & ->)]]; cbn [snd];
      eexists; (split; [reflexivity|]);
      rewrite !network_events_app, network_events_prologue, ?network_events_session;
      cbn [app].
    + cbn [map In]. auto 8.
    + change (network_events [send_failure_line env e]) with (@nil event).
      rewrite app_nil_r. cbn [map In].
      assert (steps = 1 \/ steps = 2 \/ steps = 3) as [-> | [-> | ->]] by lia; auto 8.
    + cbn. auto 8.
  - rewrite send_without_credentials by (now right). cbn [snd].
    eexists. split; [reflexivity|]. rewrite network_events_prologue. now left.
  - rewrite send_without_credentials by (now left). cbn [snd].
    eexists. split; [reflexivity|]. rewrite network_events_prologue. now left.
Qed.

Lemma status_of_result (status text : string) :
  py_getitem (PDict [("status", PStr status); ("message", PStr text)]) "status"
  = Returns (PStr status).
Proof. reflexivity. Qed.

(** X3: when the relay refuses the connection, the notifier stops there: it
    prints the failure, returns the error result carrying the exception's
    text, and sends neither STARTTLS, login, message nor QUIT. *)
Theorem refused_connection_ends_the_call (self : Agent)
        (to_addr subject body : string) (env : Env) (h : history) (e : exn) :
  py_truthy (gmail_user self) = true -> py_truthy (gmail_password self) = true ->
  smtp_connect env (h ++ send_prologue to_addr subject body
                      ++ [SmtpConnect "smtp.gmail.com" 587]) = Some e ->
  send_professor_email self to_addr subject body env h
  = (Returns (send_failure_result env e),
     (h ++ send_prologue to_addr subject body
        ++ [SmtpConnect "smtp.gmail.com" 587; send_failure_line env e])%list).
Proof.
  intros Hu Hp Hrefused. unfold send_prologue in *. cbn [app] in Hrefused.
  unfold send_professor_email. unfold_py. rewrite Hu, Hp.
  cbn [negb orb set_header attach app]. rewrite <- !app_assoc. cbn [app].
  rewrite Hrefused. close_history.
Qed.

Lemma refused_connection_ends_the_call_witness :
  let env := with_relay (equipped_env far_away) (Some refused) None None None None in
  let self := __init__ env in
  send_professor_email self "kubo@logopt.com" "subject" "body" env []
  = (Returns (send_failure_result env refused),
     ([] ++ send_prologue "kubo@logopt.com" "subject" "body"
         ++ [SmtpConnect "smtp.gmail.com" 587; send_failure_line env refused])%list).
Proof.
  exact (refused_connection_ends_the_call
           (__init__ (with_relay (equipped_env far_away) (Some refused) None None None None))
           "kubo@logopt.com" "subject" "body"
           (with_relay (equipped_env far_away) (Some refused) None None None None) []
           refused eq_refl eq_refl eq_refl).
Defined.

(** With credentials, a call is the dialogue with the relay. *)
Lemma send_dialogue (self : Agent) (to_addr subject body : string)
      (env : Env) (h : history) :
  py_truthy (gmail_user self) = true -> py_truthy (gmail_password self) = true ->
  send_professor_email self to_addr subject body env h
  = dialogue self to_addr subject body env h.
Proof.
  intros Hu Hp.
  unfold dialogue, close_after, fail_at, quit_escape, at_send, at_login, at_starttls,
    at_connect, send_prologue, send_failure_line, send_failure_result,
    send_success_result, outgoing_message, send_professor_email.
  unfold_py. rewrite Hu, Hp. cbn [negb orb set_header attach app]. cbv zeta.
  repeat (rewrite <- ?app_assoc; cbn [app]; try reflexivity; split_match).
  all: rewrite <- ?app_assoc; cbn [app]; reflexivity.
Qed.

Ltac unfold_dialogue :=
  unfold dialogue, close_after, fail_at, at_send, at_login, at_starttls, at_connect in *.

(** Go through the written-out list a membership hypothesis speaks of *)
Ltac from_membership :=
  repeat match goal with
         | H : In _ _ \/ In _ _ |- _ => destruct H as [H | H]
         | H : In _ (_ :: _) |- _ => destruct H as [H | H]; [try discriminate H|]
         | H : In _ [] |- _ => destruct H
         end.

Ltac settle_steps :=
  split; [intros host port H; from_membership; repeat split; congruence|];
  split; [intros H; from_membership; congruence|];
  split; [intros user password H; from_membership; repeat split; congruence|];
  split; [intros m H; from_membership; repeat split; congruence|];
  split; [cbn; auto 8 | cbn; lia].

(** X1: one call of the notifier takes the relay's steps in order, and each
    step only after the relay accepted the one before: the connection, to
    smtp.gmail.com port 587, only with both credentials set; STARTTLS and
    QUIT only on an accepted connection; the login, with the loaded
    credentials, only after STARTTLS was accepted; the message, the one
    built from the arguments, only after STARTTLS and the login were
    accepted.  The network events of the call are none, the connection
    alone, or the connection and a session cut after one, two or three
    steps and closed by QUIT; at most one message is handed over.  So
    credentials never travel before STARTTLS succeeded and no second message
    is sent. *)
Theorem relay_steps_in_order (self : Agent) (to_addr subject body : string)
        (env : Env) (h : history) :
  exists new,
    snd (send_professor_email self to_addr subject body env h) = (h ++ new)%list
    /\ (forall host port, In (SmtpConnect host port) new ->
        host = "smtp.gmail.com" /\ port = 587%Z
        /\ py_truthy (gmail_user self) = true /\ py_truthy (gmail_password self) = true)
    /\ (In SmtpStarttls new \/ In SmtpQuit new ->
        smtp_connect env (at_connect h to_addr subject body) = None)
    /\ (forall user password, In (SmtpLogin user password) new ->
        user = gmail_user self /\ password = gmail_password self
        /\ smtp_starttls env (at_starttls h to_addr subject body) = None)
    /\ (forall m, In (SmtpSendMessage m) new ->
        m = outgoing_message self to_addr subject body
        /\ smtp_starttls env (at_starttls h to_addr subject body) = None
        /\ smtp_login env (at_login self h to_addr subject body) = None)
    /\ In (network_events new)
          ([] :: [SmtpConnect "smtp.gmail.com" 587]
              :: map (session self (outgoing_message self to_addr subject body)) [1; 2; 3])
    /\ length (sent_messages new) <= 1.
Proof.
  destruct (py_truthy (gmail_user self)) eqn:Hu;
    [destruct (py_truthy (gmail_password self)) eqn:Hp|].
  - rewrite send_dialogue by assumption. unfold_dialogue.
    unfold send_prologue, send_failure_line, session, outgoing_message. cbv zeta.
    destruct (smtp_connect env _) eqn:Ec;
      [|destruct (smtp_starttls env _) eqn:Et;
        [|destruct (smtp_login env _) eqn:El;
          [|destruct (smtp_send_message env _) eqn:Es]]];
      try destruct (quit_escape env _); cbn [snd];
      (eexists; split; [rewrite <- ?app_assoc; cbn [app]; reflexivity|]);
      settle_steps.
  - rewrite send_without_credentials by (now right). cbn [snd].
    eexists. split; [reflexivity|]. unfold send_prologue. settle_steps.
  - rewrite send_without_credentials by (now left). cbn [snd].
    eexists. split; [reflexivity|]. unfold send_prologue. settle_steps.
Qed.

(** X2: the notifier reports success only when the relay accepted every
    step: whenever the returned status is success, the connection, STARTTLS,
    the login and the message were each accepted, nothing got out of the
    closing QUIT, and the message was handed over exactly once. *)
Theorem success_means_handed_over (self : Agent) (to_addr subject body : string)
        (env : Env) (h : history) :
  (r <~ fst (send_professor_email self to_addr subject body env h) ;
   py_getitem r "status") = Returns (PStr "success") ->
  smtp_connect env (at_connect h to_addr subject body) = None
  /\ smtp_starttls env (at_starttls h to_addr subject body) = None
  /\ smtp_login env (at_login self h to_addr subject body) = None
  /\ smtp_send_message env (at_send self h to_addr subject body) = None
  /\ quit_escape env (at_send self h to_addr subject body ++ [SmtpQuit]) = None
  /\ send_professor_email self to_addr subject body env h
     = (Returns (send_success_result to_addr),
        (at_send self h to_addr subject body ++ [SmtpQuit])%list)
  /\ sent_messages (at_send self h to_addr subject body ++ [SmtpQuit])
     = (sent_messages h ++ [outgoing_message self to_addr subject body])%list.
Proof.
  intros Hok.
  assert (Hsent : sent_messages (at_send self h to_addr subject body ++ [SmtpQuit])
                  = (sent_messages h ++ [outgoing_message self to_addr subject body])%list).
  { unfold at_send, at_login, at_starttls, at_connect.
    rewrite !sent_messages_app. cbn. rewrite ?app_nil_r. reflexivity. }
  destruct (py_truthy (gmail_user self)) eqn:Hu;
    [destruct (py_truthy (gmail_password self)) eqn:Hp|].
  - rewrite send_dialogue in Hok |- * by assumption. unfold dialogue, close_after in *.
    cbv zeta in *.
    destruct (smtp_connect env _) eqn:Ec; [discriminate Hok|].
    destruct (smtp_starttls env _) eqn:Et;
      [destruct (quit_escape env _); discriminate Hok|].
    destruct (smtp_login env _) eqn:El;
      [destruct (quit_escape env _); discriminate Hok|].
    destruct (smtp_send_message env _) eqn:Es;
      [destruct (quit_escape env _); discriminate Hok|].
    destruct (quit_escape env _) eqn:Eq; [discriminate Hok|].
    repeat split; assumption || reflexivity.
  - rewrite send_without_credentials in Hok by (now right). discriminate Hok.
  - rewrite send_without_credentials in Hok by (now left). discriminate Hok.
Qed.

Lemma success_means_handed_over_witness :
  let env := equipped_env far_away in
  let self := __init__ env in
  smtp_connect env (at_connect [] "kubo@logopt.com" "subject" "body") = None
  /\ smtp_starttls env (at_starttls [] "kubo@logopt.com" "subject" "body") = None
  /\ smtp_login env (at_login self [] "kubo@logopt.com" "subject" "body") = None
  /\ smtp_send_message env (at_send self [] "kubo@logopt.com" "subject" "body") = None
  /\ quit_escape env (at_send self [] "kubo@logopt.com" "subject" "body" ++ [SmtpQuit]) = None
  /\ send_professor_email self "kubo@logopt.com" "subject" "body" env []
     = (Returns (send_success_result "kubo@logopt.com"),
        (at_send self [] "kubo@logopt.com" "subject" "body" ++ [SmtpQuit])%list)
  /\ sent_messages (at_send self [] "kubo@logopt.com" "subject" "body" ++ [SmtpQuit])
     = (sent_messages [] ++ [outgoing_message self "kubo@logopt.com" "subject" "body"])%list.
Proof.
  exact (success_means_handed_over (__init__ (equipped_env far_away))
           "kubo@logopt.com" "subject" "body" (equipped_env far_away) [] eq_refl).
Defined.

(** X4: when the relay accepted every step and then the closing QUIT fails,
    the message has been handed over either way; a server that just hung up
    (SMTPServerDisconnected) is passed over and the result is success, while
    any other failure of QUIT is reported as a failed send. *)
Theorem failed_quit_after_delivery (self : Agent) (to_addr subject body : string)
        (env : Env) (h : history) (e : exn) :
  py_truthy (gmail_user self) = true -> py_truthy (gmail_password self) = true ->
  smtp_connect env (at_connect h to_addr subject body) = None ->
  smtp_starttls env (at_starttls h to_addr subject body) = None ->
  smtp_login env (at_login self h to_addr subject body) = None ->
  smtp_send_message env (at_send self h to_addr subject body) = None ->
  smtp_quit env (at_send self h to_addr subject body ++ [SmtpQuit]) = Some e ->
  let hq := (at_send self h to_addr subject body ++ [SmtpQuit])%list in
  send_professor_email self to_addr subject body env h
  = (if is_server_disconnected e
     then (Returns (send_success_result to_addr), hq)
     else (Returns (send_failure_result env e), (hq ++ [send_failure_line env e])%list))
  /\ sent_messages hq
     = (sent_messages h ++ [outgoing_message self to_addr subject body])%list.
Proof.
  intros Hu Hp Ec Et El Es Eq hq. split.
  - rewrite send_dialogue by assumption. unfold dialogue, quit_escape, fail_at.
    cbv zeta. unfold hq. rewrite Ec, Et, El, Es, Eq.
    now destruct (is_server_disconnected e).
  - unfold hq, at_send, at_login, at_starttls, at_connect.
    rewrite !sent_messages_app. cbn. rewrite ?app_nil_r. reflexivity.
Qed.

Lemma failed_quit_after_delivery_witness :
  let env := with_relay (equipped_env far_away) None None None None (Some bad_goodbye) in
  let self := __init__ env in
  let hq := (at_send self [] "kubo@logopt.com" "subject" "body" ++ [SmtpQuit])%list in
  send_professor_email self "kubo@logopt.com" "subject" "body" env []
  = (if is_server_disconnected bad_goodbye
     then (Returns (send_success_result "kubo@logopt.com"), hq)
     else (Returns (send_failure_result env bad_goodbye),
           (hq ++ [send_failure_line env bad_goodbye])%list))
  /\ sent_messages hq
     = (sent_messages [] ++ [outgoing_message self "kubo@logopt.com" "subject" "body"])%list.
Proof.
  exact (failed_quit_after_delivery
           (__init__ (with_relay (equipped_env far_away) None None None None (Some bad_goodbye)))
           "kubo@logopt.com" "subject" "body"
           (with_relay (equipped_env far_away) None None None None (Some bad_goodbye)) []
           bad_goodbye eq_refl eq_refl eq_refl eq_refl eq_refl eq_refl eq_refl).
Defined.

(** The two ways a failed QUIT ends, on the sample relay *)
Example quit_failures :
  let answer quit :=
    let env := with_relay (equipped_env far_away) None None None None (Some quit) in
    r <~ fst (send_professor_email (__init__ env) "kubo@logopt.com" "subject" "body" env []) ;
    py_getitem r "status" in
  answer bad_goodbye = Returns (PStr "error") /\ answer hung_up = Returns (PStr "success").
Proof. vm_compute. split; reflexivity. Qed.

(** * Further properties of the location check (lines 29-72) *)

(** The events of one call of the location check *)
Lemma location_events (self : Agent) (env : Env) (h : history) :
  exists new,
    snd (get_location_status self env h) = (h ++ new)%list
    /\ network_events new = [geo_request]
    /\ count is_location new = 1
    /\ count is_send new = 0.
Proof.
  rewrite get_location_status_run. unfold lookup_history.
  destruct (locate self env (provider_reply env h)); cbn [snd].
  - eexists. split; [reflexivity|]. repeat split.
  - eexists. split; [rewrite <- app_assoc; reflexivity|]. repeat split.
Qed.

(** X5: every call of the location check makes exactly one network call,
    the GET of http://ip-api.com/json/ with a timeout of 10 seconds, whatever
    the reply; it never enters the notifier or itself again and hands no
    message to the relay. *)
Theorem location_check_makes_one_request (self : Agent) (env : Env) (h : history) :
  exists new,
    snd (get_location_status self env h) = (h ++ new)%list
    /\ network_events new = [geo_request]
    /\ count is_location new = 1
    /\ count is_send new = 0
    /\ sent_messages new = [].
Proof.
  destruct (location_events self env h) as (new & Hnew & Nnew & Lnew & Snew).
  exists new. repeat (split; [assumption|]).
  now rewrite <- sent_messages_network, Nnew.
Qed.

Lemma float_pow_real_or_complex (env : Env) (iv iw : float) (z : Z) :
  float_pow env iv iw <> Returns (NInt z).
Proof.
  unfold float_pow. repeat split_match; discriminate.
Qed.

Lemma num_pow_float_exponent (env : Env) (a : pynum) (y : float) (z : Z) :
  num_pow env a (NFloat y) <> Returns (NInt z).
Proof.
  unfold num_pow.
  destruct a; cbn [is_complex orb to_double to_complex];
    repeat split_match; try discriminate; apply float_pow_real_or_complex.
Qed.

Lemma measured_distance_not_int (self : Agent) (env : Env)
      (user_lat user_lon : pyval) (z : Z) :
  measured_distance self env user_lat user_lon <> Returns (NInt z).
Proof.
  unfold measured_distance, and_then.
  repeat (split_match; try discriminate). apply num_pow_float_exponent.
Qed.

(** What a returning [locate] has gone through *)
Lemma locate_returns (self : Agent) (env : Env) (reply : outcome response) (r : pyval) :
  locate self env reply = Returns r ->
  lookup_fails reply = false
  /\ exists at_school text user_lat user_lon distance,
      r = success_result at_school text user_lat user_lon distance
      /\ measured_distance self env user_lat user_lon = Returns distance
      /\ num_lt distance (NFloat 0.01) = Returns at_school.
Proof.
  unfold locate, classify, lookup_fails, and_then.
  destruct reply as [[[data|e]]|e]; cbn [json_body]; try discriminate.
  destruct (py_getitem data "status") as [status|e]; try discriminate.
  destruct (py_eq_str status "success"); try discriminate.
  destruct (py_getitem data "lat") as [la|e]; try discriminate.
  destruct (py_getitem data "lon") as [lo|e]; try discriminate.
  destruct (measured_distance self env la lo) as [dist|e] eqn:Hd; try discriminate.
  destruct (num_lt dist (NFloat 0.01)) as [b|e] eqn:Hb; try discriminate.
  destruct (describe env data) as [text|e]; try discriminate.
  intros [= <-]. split; [reflexivity|]. eauto 10.
Qed.

(** X6: the location check answers at_school = true only for a lookup that
    did not fail and whose measured distance is a float below 0.01; the
    result then has status success and carries that distance. *)
Theorem present_only_when_measured_close (self : Agent) (env : Env) (h : history)
        (r : pyval) :
  fst (get_location_status self env h) = Returns r ->
  py_getitem r "at_school" = Returns (PBool true) ->
  lookup_fails (provider_reply env h) = false
  /\ py_getitem r "status" = Returns (PStr "success")
  /\ exists dist,
      py_getitem r "distance_from_school" = Returns (PFloat dist)
      /\ (dist <? 0.01)%float = true.
Proof.
  rewrite get_location_status_run.
  destruct (locate self env (provider_reply env h)) as [r'|e] eqn:Hloc; cbn [fst];
    intros [= <-] Hat.
  - destruct (locate_returns _ _ _ _ Hloc)
      as (Hok & b & text & la & lo & dist & -> & Hd & Hb).
    rewrite success_at_school in Hat. injection Hat as ->.
    split; [exact Hok|]. split; [reflexivity|].
    destruct dist as [z|d|re im].
    + now apply measured_distance_not_int in Hd.
    + exists d. split; [reflexivity|]. now injection Hb.
    + discriminate Hb.
  - rewrite error_at_school in Hat. discriminate Hat.
Qed.

Lemma present_only_when_measured_close_witness :
  let env := equipped_env on_campus in
  lookup_fails (provider_reply env []) = false
  /\ py_getitem (success_result true "Koto, Japan" (PFloat 35.6700) (PFloat 139.7952)
                                (NFloat (sqrt ((35.6699 - 35.6700) * (35.6699 - 35.6700)
                                               + (139.7951 - 139.7952) * (139.7951 - 139.7952)))))
                "status" = Returns (PStr "success")
  /\ exists dist,
      py_getitem (success_result true "Koto, Japan" (PFloat 35.6700) (PFloat 139.7952)
                                 (NFloat (sqrt ((35.6699 - 35.6700) * (35.6699 - 35.6700)
                                               + (139.7951 - 139.7952) * (139.7951 - 139.7952)))))
                 "distance_from_school" = Returns (PFloat dist)
      /\ (dist <? 0.01)%float = true.
Proof.
  apply (present_only_when_measured_close (__init__ (equipped_env on_campus))
           (equipped_env on_campus) []).
  - vm_compute. reflexivity.
  - reflexivity.
Defined.

Lemma py_sub_non_number (a b : pyval) :
  as_number a = None \/ as_number b = None -> exists e, py_sub a b = Raises e.
Proof.
  unfold py_sub. intros [-> | ->]; [|destruct (as_number a)]; eauto.
Qed.

(** X7: a reply with status success whose lat or lon is present but is not
    a number (a string, null, a list, an object) is treated as a failed
    lookup: the result is the error result, at_school false.  Coordinates
    are never parsed from text. *)
Theorem non_numeric_coordinate_is_a_failure (self : Agent) (env : Env) (h : history)
        (d : list (string * pyval)) (user_lat user_lon : pyval) :
  provider_reply env h = Returns (mkResponse (Returns (PDict d))) ->
  assoc "status" d = Some (PStr "success") ->
  assoc "lat" d = Some user_lat -> assoc "lon" d = Some user_lon ->
  as_number user_lat = None \/ as_number user_lon = None ->
  exists e, fst (get_location_status self env h) = Returns (error_result env e).
Proof.
  intros Hreply Hs Hlat Hlon Hbad.
  rewrite get_location_status_run, Hreply, (locate_success _ _ _ _ _ Hs Hlat Hlon).
  assert (exists e, measured_distance self env user_lat user_lon = Raises e) as (e & ->).
  { unfold measured_distance, and_then.
    destruct (py_getitem (school_coordinates self) "lat") as [school_lat|e]; eauto.
    destruct Hbad as [Hbad | Hbad].
    - destruct (py_sub_non_number school_lat user_lat (or_intror Hbad)) as (e & ->). eauto.
    - destruct (py_sub school_lat user_lat); eauto.
      destruct (num_abs env a); eauto.
      destruct (py_getitem (school_coordinates self) "lon") as [school_lon|e]; eauto.
      destruct (py_sub_non_number school_lon user_lon (or_intror Hbad)) as (e & ->). eauto. }
  cbn [and_then fst]. eauto.
Qed.

Lemma non_numeric_coordinate_is_a_failure_witness :
  let env := sample_env monday_1330
               (success_reply [("lat", PStr "35.6699"); ("lon", PFloat 139.7951)]) None None in
  exists e, fst (get_location_status (__init__ env) env []) = Returns (error_result env e).
Proof.
  apply (non_numeric_coordinate_is_a_failure
           (__init__ (sample_env monday_1330
                        (success_reply [("lat", PStr "35.6699"); ("lon", PFloat 139.7951)])
                        None None))
           (sample_env monday_1330
              (success_reply [("lat", PStr "35.6699"); ("lon", PFloat 139.7951)]) None None)
           [] (("status", PStr "success") :: [("lat", PStr "35.6699"); ("lon", PFloat 139.7951)])
           (PStr "35.6699") (PFloat 139.7951));
    try reflexivity.
  left. reflexivity.
Defined.

(** ** Coordinates that are not a number in the IEEE sense *)

Section NotANumber.
Local Open Scope float_scope.

Lemma nan_is_nan (f : float) : is_nan f = true -> f = nan.
Proof.
  intros Hn. apply Prim2SF_inj. revert Hn. unfold is_nan.
  rewrite FloatAxioms.eqb_spec.
  destruct (Prim2SF f) as [s|s| |s m e]; try reflexivity.
  all: unfold SFeqb, SFcompare; destruct s; cbn;
    rewrite ?Z.compare_refl, ?Pos.compare_cont_refl; discriminate.
Qed.

Lemma sub_nan_r (a : float) : a - nan = nan.
Proof.
  apply Prim2SF_inj. rewrite sub_spec.
  change (Prim2SF nan) with S754_nan. now destruct (Prim2SF a).
Qed.

Lemma add_nan_l (a : float) : nan + a = nan.
Proof.
  apply Prim2SF_inj. rewrite add_spec.
  change (Prim2SF nan) with S754_nan. reflexivity.
Qed.

Lemma add_nan_r (a : float) : a + nan = nan.
Proof.
  apply Prim2SF_inj. rewrite add_spec.
  change (Prim2SF nan) with S754_nan. now destruct (Prim2SF a).
Qed.

Lemma float_pow_nan (env : Env) (iw : float) :
  (iw =? 0) = false -> float_pow env nan iw = Returns (NFloat nan).
Proof. intros H. unfold float_pow. rewrite H. reflexivity. Qed.

(** Squaring never leaves the reals. *)
Lemma float_pow_two_real (env : Env) (x : float) (n : pynum) :
  float_pow env x 2 = Returns n -> exists q, n = NFloat q.
Proof.
  unfold float_pow.
  change (2 =? 0) with false. change (is_nan 2) with false.
  change (is_infinity 2) with false. change (is_whole 2) with true.
  cbn [negb]. rewrite Bool.andb_false_r.
  repeat split_match; intros [= <-]; eauto.
Qed.

End NotANumber.

(** The difference to a float reference is a real number or a complex one,
    and its absolute value is a float. *)
Lemma abs_of_difference (env : Env) (a : float) (v : pyval) (n m : pynum) :
  py_sub (PFloat a) v = Returns n -> num_abs env n = Returns m -> exists g, m = NFloat g.
Proof.
  unfold py_sub, num_sub, num_arith.
  destruct (as_number v) as [[z|f|re im]|]; cbn [as_number is_complex orb to_double to_complex];
    try discriminate.
  - destruct (int_to_double z); intros [= <-]; cbn [num_abs]; intros [= <-]; eauto.
  - intros [= <-]; cbn [num_abs]; intros [= <-]; eauto.
  - intros [= <-]; cbn [num_abs]. destruct (complex_abs env _); intros [= <-]; eauto.
Qed.

Lemma abs_of_nan_difference (env : Env) (a : float) (n m : pynum) :
  py_sub (PFloat a) (PFloat nan) = Returns n -> num_abs env n = Returns m ->
  m = NFloat nan.
Proof.
  unfold py_sub, num_sub, num_arith. cbn [as_number is_complex orb to_double].
  rewrite sub_nan_r. intros [= <-]. cbn [num_abs]. now intros [= <-].
Qed.

Lemma square_of_float (env : Env) (g : float) (n : pynum) :
  num_pow env (NFloat g) (NInt 2) = Returns n -> exists q, n = NFloat q.
Proof.
  unfold num_pow. cbn [is_complex orb to_double]. rewrite int_to_double_two.
  apply float_pow_two_real.
Qed.

Lemma square_of_nan (env : Env) :
  num_pow env (NFloat nan) (NInt 2) = Returns (NFloat nan).
Proof.
  unfold num_pow. cbn [is_complex orb to_double]. rewrite int_to_double_two.
  reflexivity.
Qed.

Lemma root_of_nan (env : Env) :
  num_pow env (NFloat nan) (NFloat 0.5) = Returns (NFloat nan).
Proof. reflexivity. Qed.

(** With a NaN coordinate the distance, if one is computed, is NaN. *)
Lemma measured_with_nan (env : Env) (user_lat user_lon : pyval) (dist : pynum) :
  user_lat = PFloat nan \/ user_lon = PFloat nan ->
  measured_distance (__init__ env) env user_lat user_lon = Returns dist ->
  dist = NFloat nan.
Proof.
  intros Hnan. unfold measured_distance. cbn [__init__ school_coordinates].
  cbn [py_getitem assoc String.eqb Ascii.eqb Bool.eqb and_then].
  destruct (py_sub (PFloat 35.6699) user_lat) as [dlat|e] eqn:Elat; [|discriminate].
  cbn [and_then].
  destruct (num_abs env dlat) as [lat_diff|e] eqn:Alat; [|discriminate].
  cbn [and_then].
  destruct (py_sub (PFloat 139.7951) user_lon) as [dlon|e] eqn:Elon; [|discriminate].
  cbn [and_then].
  destruct (num_abs env dlon) as [lon_diff|e] eqn:Alon; [|discriminate].
  cbn [and_then].
  destruct (abs_of_difference _ _ _ _ _ Elat Alat) as (g1 & ->).
  destruct (abs_of_difference _ _ _ _ _ Elon Alon) as (g2 & ->).
  destruct Hnan as [-> | ->].
  - apply (abs_of_nan_difference _ _ _ _ Elat) in Alat. injection Alat as ->.
    rewrite square_of_nan. cbn [and_then].
    destruct (num_pow env (NFloat g2) (NInt 2)) as [lon_sq|e] eqn:Q; [|discriminate].
    destruct (square_of_float _ _ _ Q) as (q & ->).
    cbn [and_then num_add num_arith is_complex orb to_double].
    rewrite add_nan_l, root_of_nan. now intros [= <-].
  - apply (abs_of_nan_difference _ _ _ _ Elon) in Alon. injection Alon as ->.
    destruct (num_pow env (NFloat g1) (NInt 2)) as [lat_sq|e] eqn:Q; [|discriminate].
    destruct (square_of_float _ _ _ Q) as (q & ->).
    cbn [and_then]. rewrite square_of_nan.
    cbn [and_then num_add num_arith is_complex orb to_double].
    rewrite add_nan_r, root_of_nan. now intros [= <-].
Qed.

(** X8: a NaN coordinate (which Python's JSON decoder accepts) is never
    classified as present: with lat or lon NaN in a success reply, the
    result has at_school = false, and whenever a distance is reported it is
    NaN. *)
Theorem nan_coordinate_is_absent (env : Env) (h : history)
        (d : list (string * pyval)) (user_lat user_lon : pyval) :
  provider_reply env h = Returns (mkResponse (Returns (PDict d))) ->
  assoc "status" d = Some (PStr "success") ->
  assoc "lat" d = Some user_lat -> assoc "lon" d = Some user_lon ->
  user_lat = PFloat nan \/ user_lon = PFloat nan ->
  let result := fst (get_location_status (__init__ env) env h) in
  (r <~ result ; py_getitem r "at_school") = Returns (PBool false)
  /\ (forall v, (r <~ result ; py_getitem r "distance_from_school") = Returns v ->
                v = PFloat nan).
Proof.
  intros Hreply Hs Hlat Hlon Hnan result. unfold result.
  rewrite get_location_status_run, Hreply, (locate_success _ _ _ _ _ Hs Hlat Hlon).
  destruct (measured_distance (__init__ env) env user_lat user_lon) as [dist|e] eqn:Hd;
    cbn [and_then fst].
  - rewrite (measured_with_nan _ _ _ _ Hnan Hd). cbn [and_then num_lt fst].
    split; [reflexivity|]. intros v. cbn. now intros [= <-].
  - split; [reflexivity|]. intros v. cbn. discriminate.
Qed.

Lemma nan_coordinate_is_absent_witness :
  let env := sample_env monday_1330
               (success_reply [("lat", PFloat nan); ("lon", PFloat 139.7951)]) None None in
  let result := fst (get_location_status (__init__ env) env []) in
  (r <~ result ; py_getitem r "at_school") = Returns (PBool false)
  /\ (forall v, (r <~ result ; py_getitem r "distance_from_school") = Returns v ->
                v = PFloat nan).
Proof.
  apply (nan_coordinate_is_absent
           (sample_env monday_1330
              (success_reply [("lat", PFloat nan); ("lon", PFloat 139.7951)]) None None)
           [] (("status", PStr "success") :: [("lat", PFloat nan); ("lon", PFloat 139.7951)])
           (PFloat nan) (PFloat 139.7951));
    try reflexivity.
  left. reflexivity.
Defined.

(** * Further properties of the trigger handler (lines 124-164) *)

Ltac tidy_history :=
  rewrite <- ?app_assoc; cbn [app]; rewrite <- ?app_assoc; cbn [app].

(** A run that passes the gate: the location check at [location_history],
    console lines, and, unless present, the notifier and a last console
    line. *)
Lemma run_passed_gate (self : Agent) (env : Env) (h : history) :
  gate_holds env h = true ->
  exists r loc,
    get_location_status self env (location_history env h)
    = (Returns r, (location_history env h ++ loc)%list)
    /\ ((reported_at_school self env h = true
         /\ exists post,
             forallb is_quiet post = true
             /\ snd (run_notification_check self env h)
                = (location_history env h ++ loc ++ post)%list)
        \/ (reported_at_school self env h = false
            /\ exists mid out post,
                forallb is_quiet mid = true /\ forallb is_quiet post = true
                /\ snd (send_professor_email self (professor_email self) notice_subject
                                             (notice_body self) env
                                             (location_history env h ++ loc ++ mid)%list)
                   = (location_history env h ++ loc ++ mid ++ out)%list
                /\ snd (run_notification_check self env h)
                   = (location_history env h ++ loc ++ mid ++ out ++ post)%list)).
Proof.
  unfold run_notification_check, check_monday_1pm, reported_at_school, reported_field,
    reported, location_history, gate_holds, gate_time, gate_history,
    notice_subject, notice_body.
  unfold_py. rewrite <- !app_assoc. cbn [app].
  match goal with
  | |- context [if negb ?g then _ else _] => destruct g eqn:G
  end; [intros _ | discriminate]; cbn [negb]; tidy_history.
  match goal with
  | |- context [get_location_status ?s ?e ?hh] =>
      destruct (get_location_status_shape s e hh)
        as (r & mid & Hrun & _ & _ & [(b & text & la & lo & di & ->) | (e' & ->)])
  end; rewrite Hrun; cbn [fst snd and_then];
    rewrite <- ?app_assoc in Hrun; cbn [app] in Hrun;
    eexists; eexists; (split; [tidy_history; reflexivity|]).
  - rewrite success_status, success_at_school, success_description.
    change (py_eq_str (PStr "success") "error") with false. cbn [py_truthy].
    destruct b; [left | right]; (split; [reflexivity|]).
    + eexists. split; [|cbn [snd]; tidy_history; reflexivity]. reflexivity.
    + match goal with
      | |- context [send_professor_email ?s ?a ?sb ?bd ?e ?hh] =>
          destruct (send_professor_email_shape s a sb bd e hh)
            as (st & msg & tail & Hsend & _)
      end; rewrite Hsend.
      cbn [py_getitem assoc]. change ("status" =? "status")%string with true. cbn iota.
      change ("status" =? "message")%string with false.
      change ("message" =? "message")%string with true. cbn iota.
      rewrite <- ?app_assoc in Hsend; cbn [app] in Hsend.
      match type of Hsend with
      | send_professor_email _ _ _ _ _ (_ ++ _ :: _ :: _ :: _ :: CallLocation :: _ ++ ?prints)%list
        = (_, (_ ++ _ :: _ :: _ :: _ :: CallLocation :: _ ++ ?rest)%list) =>
          exists prints;
          lazymatch rest with
          | (_ :: _ :: _ :: ?out)%list => exists out
          end
      end.
      destruct (py_eq_str (PStr st) "success"); eexists;
        (split; [reflexivity|]); (split; [|split]);
        [ | tidy_history; rewrite Hsend; cbn [snd]; tidy_history; reflexivity
          | cbn [snd]; tidy_history; reflexivity
          | | tidy_history; rewrite Hsend; cbn [snd]; tidy_history; reflexivity
          | cbn [snd]; tidy_history; reflexivity ]; reflexivity.
  - rewrite error_status, error_at_school, error_description, error_error.
    change (py_eq_str (PStr "error") "error") with true. cbn [py_truthy].
    right. split; [reflexivity|].
    match goal with
    | |- context [send_professor_email ?s ?a ?sb ?bd ?e ?hh] =>
        destruct (send_professor_email_shape s a sb bd e hh)
          as (st & msg & tail & Hsend & _)
    end; rewrite Hsend.
    cbn [py_getitem assoc]. change ("status" =? "status")%string with true. cbn iota.
    change ("status" =? "message")%string with false.
    change ("message" =? "message")%string with true. cbn iota.
    rewrite <- ?app_assoc in Hsend; cbn [app] in Hsend.
    match type of Hsend with
    | send_professor_email _ _ _ _ _ (_ ++ _ :: _ :: _ :: _ :: CallLocation :: _ ++ ?prints)%list
      = (_, (_ ++ _ :: _ :: _ :: _ :: CallLocation :: _ ++ ?rest)%list) =>
        exists prints;
        lazymatch rest with
        | (_ :: _ :: _ :: _ :: ?out)%list => exists out
        end
    end.
    destruct (py_eq_str (PStr st) "success"); eexists;
      (split; [reflexivity|]); (split; [|split]);
      [ | tidy_history; rewrite Hsend; cbn [snd]; tidy_history; reflexivity
        | cbn [snd]; tidy_history; reflexivity
        | | tidy_history; rewrite Hsend; cbn [snd]; tidy_history; reflexivity
        | cbn [snd]; tidy_history; reflexivity ]; reflexivity.
Qed.

Lemma quiet_filter (p : event -> bool) (l : history) :
  (forall e, is_quiet e = true -> p e = false) ->
  forallb is_quiet l = true -> filter p l = [].
Proof.
  intros Hp. induction l as [|e l IH]; [reflexivity|].
  cbn [forallb filter]. intros [He Hl]%Bool.andb_true_iff.
  now rewrite (Hp e He), IH.
Qed.

Lemma quiet_network (l : history) :
  forallb is_quiet l = true -> network_events l = [].
Proof. apply quiet_filter. now intros []. Qed.

Lemma quiet_count (p : event -> bool) (l : history) :
  (forall e, is_quiet e = true -> p e = false) ->
  forallb is_quiet l = true -> count p l = 0.
Proof. intros Hp Hl. unfold count. now rewrite quiet_filter. Qed.

Lemma quiet_sent_messages (l : history) :
  forallb is_quiet l = true -> sent_messages l = [].
Proof.
  induction l as [|e l IH]; [reflexivity|].
  cbn [forallb]. intros [He Hl]%Bool.andb_true_iff.
  destruct e; try discriminate He; cbn [sent_messages]; auto.
Qed.

Lemma location_history_split (env : Env) (h : history) :
  exists pre, location_history env h = (h ++ pre)%list /\ forallb is_quiet pre = true.
Proof.
  unfold location_history, gate_history. eexists.
  split; [rewrite <- app_assoc; reflexivity | reflexivity].
Qed.

Lemma quiet_not_location (e : event) : is_quiet e = true -> is_location e = false.
Proof. now destruct e. Qed.

Lemma quiet_not_send (e : event) : is_quiet e = true -> is_send e = false.
Proof. now destruct e. Qed.

(** The events a run adds once the gate is passed: one lookup, console
    lines, and the notifier's events unless present. *)
Lemma run_events (self : Agent) (env : Env) (h : history) :
  gate_holds env h = true ->
  exists new smtp,
    snd (run_notification_check self env h) = (h ++ new)%list
    /\ network_events new = geo_request :: smtp
    /\ count is_location new = 1
    /\ (reported_at_school self env h = true -> smtp = [] /\ sent_messages new = [])
    /\ (reported_at_school self env h = false ->
        exists hs out,
          snd (send_professor_email self (professor_email self) notice_subject
                                    (notice_body self) env hs) = (hs ++ out)%list
          /\ network_events out = smtp
          /\ sent_messages new = sent_messages out).
Proof.
  intros G.
  destruct (run_passed_gate self env h G) as (r & loc & Hloc & Hcases).
  destruct (location_history_split env h) as (pre & Hpre & Qpre).
  destruct (location_events self env (location_history env h))
    as (loc' & Hloc' & Nloc & Lloc & Sloc).
  rewrite Hloc in Hloc'. cbn [snd] in Hloc'. apply app_inv_head in Hloc'. subst loc'.
  assert (Mloc : sent_messages loc = []).
  { now rewrite <- sent_messages_network, Nloc. }
  destruct Hcases as [(A & post & Qpost & ->) | (A & mid & out & post & Qmid & Qpost & Hsend & ->)];
    rewrite Hpre, <- !app_assoc.
  - exists (pre ++ loc ++ post)%list, []. split; [reflexivity|].
    rewrite !network_events_app, (quiet_network _ Qpre), (quiet_network _ Qpost), Nloc.
    split; [reflexivity|].
    rewrite !count_app, (quiet_count _ _ quiet_not_location Qpre),
      (quiet_count _ _ quiet_not_location Qpost), Lloc.
    split; [reflexivity|]. split; [|congruence].
    intros _. split; [reflexivity|].
    now rewrite !sent_messages_app, (quiet_sent_messages _ Qpre),
      (quiet_sent_messages _ Qpost), Mloc.
  - destruct (send_professor_email_shape self (professor_email self) notice_subject
                (notice_body self) env (location_history env h ++ loc ++ mid)%list)
      as (st & msg & tail & Hshape & _ & Ltail).
    rewrite Hshape in Hsend. cbn [snd] in Hsend.
    rewrite !app_assoc in Hsend. apply app_inv_head in Hsend. subst out.
    exists (pre ++ loc ++ mid
              ++ (CallSend (professor_email self) notice_subject (notice_body self) :: tail)
              ++ post)%list,
           (network_events tail).
    split; [reflexivity|].
    rewrite !network_events_app, (quiet_network _ Qpre), (quiet_network _ Qmid),
      (quiet_network _ Qpost), Nloc, app_nil_r.
    split; [reflexivity|].
    rewrite !count_app, count_cons, (quiet_count _ _ quiet_not_location Qpre),
      (quiet_count _ _ quiet_not_location Qmid),
      (quiet_count _ _ quiet_not_location Qpost), Lloc, Ltail.
    split; [reflexivity|]. split; [congruence|].
    intros _. eexists; eexists. split; [rewrite Hshape; reflexivity|].
    split; [reflexivity|].
    rewrite !sent_messages_app, (quiet_sent_messages _ Qpre), (quiet_sent_messages _ Qmid),
      (quiet_sent_messages _ Qpost), Mloc, app_nil_r. reflexivity.
Qed.

(** X9: a run that passes the gate performs exactly one location check; its
    network traffic is the one geolocation request followed by at most one
    SMTP session, whose steps come in order. *)
Theorem on_slot_run_looks_up_once (self : Agent) (env : Env) (h : history) :
  gate_holds env h = true ->
  exists new smtp,
    snd (run_notification_check self env h) = (h ++ new)%list
    /\ count is_location new = 1
    /\ network_events new = geo_request :: smtp
    /\ In smtp
          ([] :: [SmtpConnect "smtp.gmail.com" 587]
              :: map (session self (outgoing_message self (professor_email self)
                                                     notice_subject (notice_body self)))
                     [1; 2; 3]).
Proof.
  intros G.
  destruct (run_events self env h G) as (new & smtp & Hnew & Nnew & Lnew & Hin & Hout).
  exists new, smtp. split; [exact Hnew|]. split; [exact Lnew|]. split; [exact Nnew|].
  destruct (reported_at_school self env h).
  - destruct (Hin eq_refl) as (-> & _). now left.
  - destruct (Hout eq_refl) as (hs & out & Hsend & <- & _).
    destruct (send_network_events self (professor_email self) notice_subject
                (notice_body self) env hs) as (out' & Hsend' & Hshape).
    rewrite Hsend in Hsend'. apply app_inv_head in Hsend'. now subst out'.
Qed.

Lemma on_slot_run_looks_up_once_witness :
  let env := equipped_env far_away in
  let self := __init__ env in
  exists new smtp,
    snd (run_notification_check self env []) = ([] ++ new)%list
    /\ count is_location new = 1
    /\ network_events new = geo_request :: smtp
    /\ In smtp
          ([] :: [SmtpConnect "smtp.gmail.com" 587]
              :: map (session self (outgoing_message self (professor_email self)
                                                     notice_subject (notice_body self)))
                     [1; 2; 3]).
Proof.
  exact (on_slot_run_looks_up_once (__init__ (equipped_env far_away))
           (equipped_env far_away) [] eq_refl).
Defined.

(** X10: when the location check reports present, the run's only network
    call is the geolocation request: no SMTP connection is opened and no
    message leaves. *)
Theorem present_run_never_reaches_relay (self : Agent) (env : Env) (h : history) :
  gate_holds env h = true ->
  reported_at_school self env h = true ->
  exists new,
    snd (run_notification_check self env h) = (h ++ new)%list
    /\ network_events new = [geo_request]
    /\ sent_messages new = [].
Proof.
  intros G A.
  destruct (run_events self env h G) as (new & smtp & Hnew & Nnew & _ & Hin & _).
  destruct (Hin A) as (-> & Hsent). eauto.
Qed.

Lemma present_run_never_reaches_relay_witness :
  let env := equipped_env on_campus in
  exists new,
    snd (run_notification_check (__init__ env) env []) = ([] ++ new)%list
    /\ network_events new = [geo_request]
    /\ sent_messages new = [].
Proof.
  apply (present_run_never_reaches_relay (__init__ (equipped_env on_campus))
           (equipped_env on_campus) []); vm_compute; reflexivity.
Defined.

Lemma skip_history_split (env : Env) (h : history) :
  exists new, skip_history env h = (h ++ new)%list /\ forallb is_quiet new = true.
Proof.
  unfold skip_history, gate_history. eexists.
  split; [rewrite <- !app_assoc; reflexivity | reflexivity].
Qed.

(** X11: with a credential missing, no run of the handler reaches the mail
    relay: off the slot it makes no network call at all, on the slot only
    the geolocation request, even when the notifier is entered. *)
Theorem run_without_credentials_never_reaches_relay (self : Agent) (env : Env)
        (h : history) :
  py_truthy (gmail_user self) = false \/ py_truthy (gmail_password self) = false ->
  exists new,
    snd (run_notification_check self env h) = (h ++ new)%list
    /\ network_events new = (if gate_holds env h then [geo_request] else [])
    /\ sent_messages new = [].
Proof.
  intros Hcred. destruct (gate_holds env h) eqn:G.
  - destruct (run_events self env h G) as (new & smtp & Hnew & Nnew & _ & Hin & Hout).
    exists new. split; [exact Hnew|].
    destruct (reported_at_school self env h).
    + destruct (Hin eq_refl) as (-> & Hsent). auto.
    + destruct (Hout eq_refl) as (hs & out & Hsend & <- & ->).
      rewrite send_without_credentials in Hsend by exact Hcred.
      cbn [snd] in Hsend. apply app_inv_head in Hsend. subst out.
      rewrite Nnew. split; reflexivity.
  - destruct (run_notification_check_cases self env h)
      as [(_ & ->) | [(G' & _) | (G' & _)]]; try congruence.
    destruct (skip_history_split env h) as (new & -> & Q). cbn [snd].
    exists new. split; [reflexivity|].
    now rewrite (quiet_network _ Q), (quiet_sent_messages _ Q).
Qed.

Lemma run_without_credentials_never_reaches_relay_witness :
  let env := sample_env monday_1330 (success_reply far_away) None None in
  exists new,
    snd (run_notification_check (__init__ env) env []) = ([] ++ new)%list
    /\ network_events new = (if gate_holds env [] then [geo_request] else [])
    /\ sent_messages new = [].
Proof.
  apply (run_without_credentials_never_reaches_relay
           (__init__ (sample_env monday_1330 (success_reply far_away) None None))
           (sample_env monday_1330 (success_reply far_away) None None) []).
  left. reflexivity.
Defined.

(** The notifier calls a run adds *)
Lemma sends_of_run (self : Agent) (env : Env) (h : history) :
  count is_send (snd (run_notification_check self env h))
  = count is_send h
    + (if gate_holds env h && negb (reported_at_school self env h) then 1 else 0).
Proof.
  destruct (run_notification_check_cases self env h)
    as [(G & ->) | [(G & A & mid & -> & Hs & _) | (G & A & mid & tail & -> & Hs & _ & Ht & _)]];
    rewrite G, ?A; cbn [snd andb negb].
  - rewrite count_skip_history by reflexivity. lia.
  - rewrite count_app, count_cons, count_location_history, Hs by reflexivity.
    cbn [is_send]. lia.
  - rewrite count_app, count_cons, count_app, count_cons, count_location_history, Hs, Ht
      by reflexivity.
    cbn [is_send]. lia.
Qed.

(** X12: the handler keeps no record of what it sent: a second run, started
    where the first one ended, sends again whenever it too passes the gate
    and finds the location absent. *)
Theorem second_run_sends_again (self : Agent) (env : Env) (h : history) :
  let h1 := snd (run_notification_check self env h) in
  gate_holds env h = true -> reported_at_school self env h = false ->
  gate_holds env h1 = true -> reported_at_school self env h1 = false ->
  count is_send (snd (run_notification_check self env h1)) = count is_send h + 2.
Proof.
  intros h1 G A G1 A1. rewrite sends_of_run, G1, A1. unfold h1.
  rewrite sends_of_run, G, A. cbn [andb negb]. lia.
Qed.

Lemma second_run_sends_again_witness :
  let env := equipped_env far_away in
  let self := __init__ env in
  count is_send (snd (run_notification_check self env
                        (snd (run_notification_check self env []))))
  = count is_send [] + 2.
Proof.
  apply (second_run_sends_again (__init__ (equipped_env far_away))
           (equipped_env far_away) []); vm_compute; reflexivity.
Defined.

(** X14: when the gate is passed, the location is absent, the credentials
    are loaded and the relay accepts every step, exactly one message leaves,
    after the geolocation request: the multipart notice From the loaded
    user, To the professor's address, with the fixed subject and body. *)
Theorem accepted_notice_is_the_message (self : Agent) (env : Env) (h : history) :
  gate_holds env h = true -> reported_at_school self env h = false ->
  py_truthy (gmail_user self) = true -> py_truthy (gmail_password self) = true ->
  relay_accepts env ->
  let msg := outgoing_message self (professor_email self) notice_subject (notice_body self) in
  exists new,
    snd (run_notification_check self env h) = (h ++ new)%list
    /\ network_events new = geo_request :: session self msg 3
    /\ sent_messages new = [msg].
Proof.
  intros G A Hu Hp Hrelay msg.
  destruct (run_events self env h G) as (new & smtp & Hnew & Nnew & _ & _ & Hout).
  destruct (Hout A) as (hs & out & Hsend & <- & Hsent).
  destruct (send_with_credentials self (professor_email self) notice_subject
              (notice_body self) env hs Hu Hp)
    as (st & text & tail & Hrun & _ & _ & _ & Hok).
  destruct (Hok Hrelay) as (_ & ->).
  rewrite Hrun in Hsend. cbn [snd] in Hsend. apply app_inv_head in Hsend. subst out.
  exists new. split; [exact Hnew|]. rewrite Nnew, Hsent. split; reflexivity.
Qed.

Lemma accepted_notice_is_the_message_witness :
  let env := equipped_env far_away in
  let self := __init__ env in
  let msg := outgoing_message self (professor_email self) notice_subject (notice_body self) in
  exists new,
    snd (run_notification_check self env []) = ([] ++ new)%list
    /\ network_events new = geo_request :: session self msg 3
    /\ sent_messages new = [msg].
Proof.
  apply (accepted_notice_is_the_message (__init__ (equipped_env far_away))
           (equipped_env far_away) []); try (vm_compute; reflexivity).
  intros h. repeat split.
Defined.

Lemma prefix_app (s t : string) : prefix s (s ++ t) = true.
Proof.
  induction s as [|c s IH]; [now destruct t|].
  cbn [append prefix]. now destruct (ascii_dec c c).
Qed.

Lemma string_app_assoc (s t u : string) : (s ++ t) ++ u = s ++ t ++ u.
Proof. induction s as [|c s IH]; cbn [append]; [reflexivity | now rewrite IH]. Qed.

Lemma contains_prefix (needle hay : string) :
  prefix needle hay = true -> contains needle hay = true.
Proof. intros H. destruct hay; cbn [contains]; now rewrite H. Qed.

Lemma contains_inside (needle before after : string) :
  contains needle (before ++ needle ++ after) = true.
Proof.
  induction before as [|c before IH].
  - cbn [append]. apply contains_prefix, prefix_app.
  - cbn [append contains]. rewrite IH. apply Bool.orb_true_r.
Qed.

(** X13: whatever the agent's attributes hold, a run that sends calls the
    notifier once, with the agent's professor address, the fixed subject and
    a body in which the agent's student identifier and student name both
    occur. *)
Theorem notice_carries_the_agent_fields (self : Agent) (env : Env) (h : history) :
  gate_holds env h = true ->
  reported_at_school self env h = false ->
  exists before after,
    snd (run_notification_check self env h)
    = (h ++ before ++ CallSend (professor_email self) "本日の授業について"
                               (notice_body self) :: after)%list
    /\ count is_send before = 0 /\ count is_send after = 0
    /\ contains (student_id self) (notice_body self) = true
    /\ contains (student_name self) (notice_body self) = true.
Proof.
  intros G A.
  destruct (run_notification_check_cases self env h)
    as [(G' & _) | [(_ & A' & _) | (_ & _ & mid & tail & -> & Hs & _ & Ht & _)]];
    try congruence.
  destruct (location_history_split env h) as (pre & -> & Q). cbn [snd].
  exists (pre ++ CallLocation :: mid)%list, tail.
  split; [now rewrite <- !app_assoc|].
  split; [rewrite count_app, count_cons, Hs, (quiet_count _ _ quiet_not_send Q); reflexivity|].
  split; [exact Ht|]. unfold notice_body. split.
  - apply (contains_inside (student_id self) "久保先生、").
  - rewrite <- (string_app_assoc (student_id self) "の"),
      <- (string_app_assoc "久保先生、" (student_id self ++ "の")).
    apply (contains_inside (student_name self)).
Qed.

Lemma notice_carries_the_agent_fields_witness :
  let env := equipped_env far_away in
  let self := other_student env in
  exists before after,
    snd (run_notification_check self env [])
    = ([] ++ before ++ CallSend (professor_email self) "本日の授業について"
                                (notice_body self) :: after)%list
    /\ count is_send before = 0 /\ count is_send after = 0
    /\ contains (student_id self) (notice_body self) = true
    /\ contains (student_name self) (notice_body self) = true.
Proof.
  apply (notice_carries_the_agent_fields (other_student (equipped_env far_away))
           (equipped_env far_away) []); vm_compute; reflexivity.
Defined.

(** * The constructor (lines 16-27) *)

(** X15: a credential that is set but empty counts as missing: an agent
    constructed where GMAIL_USER or GMAIL_APP_PASSWORD is unset or the empty
    string returns the error result from every send and makes no network
    call; otherwise it opens the SMTP session. *)
Theorem empty_credential_counts_as_missing (env : Env)
        (to_addr subject body : string) (h : history) :
  let self := __init__ env in
  let unusable name := getenv env name = None \/ getenv env name = Some EmptyString in
  (unusable "GMAIL_USER" \/ unusable "GMAIL_APP_PASSWORD" ->
   send_professor_email self to_addr subject body env h
   = (Returns missing_credentials_result, (h ++ send_prologue to_addr subject body)%list))
  /\ (~ (unusable "GMAIL_USER" \/ unusable "GMAIL_APP_PASSWORD") ->
      exists new,
        snd (send_professor_email self to_addr subject body env h) = (h ++ new)%list
        /\ exists rest, network_events new = SmtpConnect "smtp.gmail.com" 587 :: rest).
Proof.
  intros self unusable.
  assert (Hfalsy : forall name,
             py_truthy (os_getenv env name) = false <-> unusable name).
  { intros name. unfold unusable, os_getenv.
    destruct (getenv env name) as [[|c s]|]; cbn; split; intros H; auto;
      try discriminate; destruct H; congruence. }
  split.
  - intros Hbad. apply send_without_credentials.
    destruct Hbad as [H | H]; [left | right]; now apply Hfalsy.
  - intros Hgood.
    assert (Hu : py_truthy (gmail_user self) = true).
    { destruct (py_truthy (gmail_user self)) eqn:E; [reflexivity|].
      exfalso. apply Hgood. left. now apply Hfalsy. }
    assert (Hp : py_truthy (gmail_password self) = true).
    { destruct (py_truthy (gmail_password self)) eqn:E; [reflexivity|].
      exfalso. apply Hgood. right. now apply Hfalsy. }
    destruct (send_with_credentials self to_addr subject body env h Hu Hp)
      as (st & text & tail & -> & _). cbn [snd].
    eexists. split; [reflexivity|].
    rewrite network_events_app, network_events_prologue. cbn. eauto.
Qed.
